(** * ddgs-mcp-wrapper: the tool-call pipeline of [server.py]

    A shallow embedding of the request handlers of the DDGS MCP server:
    argument extraction and cleaning, the construction and caching of the
    provider client, the provider call and the rendering of the results.

    The search provider ([ddgs.DDGS]) is an external collaborator; it is a
    parameter of the development.  The MCP server library, which
    validates the arguments of an invocation against the input schema
    before it calls [handle_call_tool], is not part of the repository
    either; its validation is modelled from the specification.  Python
    values are restricted to the JSON scalars (null, booleans, integers,
    strings); characters are the code points below 256. *)

From Stdlib Require Import ZArith Ascii String List Lia Numbers.DecimalString.
From stdpp Require Import gmap strings.

Local Open Scope Z_scope.
Local Open Scope string_scope.

(** ** Python values and the string primitives the handlers use *)

Module Py.

Inductive pyval : Type :=
| PNone
| PBool (b : bool)
| PInt (n : Z)
| PStr (s : string).

#[global] Instance pyval_eq_dec : EqDecision pyval.
Proof. solve_decision. Defined.

(** The exceptions that can arise while a handler runs.  [ProviderError]
    stands for any exception of the provider that is an instance of
    [Exception]; [BaseExceptionOnly] for one that is a [BaseException] but
    not an [Exception] ([KeyboardInterrupt], [SystemExit],
    [asyncio.CancelledError]), with the name of its class. *)
Inductive exn : Type :=
| KeyError (key : string)
| AttributeError (ty attr : string)
| TypeError (msg : string)
| ValueError (msg : string)
| ProviderError (msg : string)
| BaseExceptionOnly (class msg : string).

(** [isinstance(e, Exception)] *)
Definition is_exception (e : exn) : bool :=
  match e with
  | BaseExceptionOnly _ _ => false
  | _ => true
  end.

Inductive pyres (A : Type) : Type :=
| Ok (a : A)
| Raise (e : exn).
Arguments Ok {A} a.
Arguments Raise {A} e.

Definition pbind {A B} (x : pyres A) (f : A -> pyres B) : pyres B :=
  match x with
  | Ok a => f a
  | Raise e => Raise e
  end.

Definition nl : string := String (ascii_of_nat 10) EmptyString.
Definition squote : ascii := ascii_of_nat 39.
Definition dquote : ascii := ascii_of_nat 34.

(** [''.join(parts)] *)
Definition cat (parts : list string) : string := String.concat EmptyString parts.

Definition str_nat (n : nat) : string := NilZero.string_of_uint (Nat.to_uint n).
Definition str_Z (n : Z) : string := NilZero.string_of_int (Z.to_int n).

(** [type(v).__name__] *)
Definition type_name (v : pyval) : string :=
  match v with
  | PNone => "NoneType"
  | PBool _ => "bool"
  | PInt _ => "int"
  | PStr _ => "str"
  end.

(** [str(v)], which is also what an f-string field [{v}] renders. *)
Definition str (v : pyval) : string :=
  match v with
  | PNone => "None"
  | PBool true => "True"
  | PBool false => "False"
  | PInt n => str_Z n
  | PStr s => s
  end.

(** [bool(v)] *)
Definition truthy (v : pyval) : bool :=
  match v with
  | PNone => false
  | PBool b => b
  | PInt n => negb (Z.eqb n 0)
  | PStr EmptyString => false
  | PStr (String _ _) => true
  end.

(** [v == w]; a bool compares equal to the integer it denotes. *)
Definition as_int (v : pyval) : option Z :=
  match v with
  | PBool b => Some (if b then 1 else 0)
  | PInt n => Some n
  | _ => None
  end.

Definition py_eq (v w : pyval) : bool :=
  match as_int v, as_int w with
  | Some a, Some b => Z.eqb a b
  | _, _ => bool_decide (v = w)
  end.

(** [str(e)] for an exception [e]. *)
Definition str_exn (e : exn) : string :=
  match e with
  | KeyError key => cat [String squote EmptyString; key; String squote EmptyString]
  | AttributeError ty attr =>
      cat [String squote EmptyString; ty; String squote EmptyString;
           " object has no attribute ";
           String squote EmptyString; attr; String squote EmptyString]
  | TypeError msg => msg
  | ValueError msg => msg
  | ProviderError msg => msg
  | BaseExceptionOnly _ msg => msg
  end.

(** [c.isspace()] *)
Definition is_space (c : ascii) : bool :=
  let n := nat_of_ascii c in
  ((9 <=? n)%nat && (n <=? 13)%nat) || ((28 <=? n)%nat && (n <=? 32)%nat)
  || (n =? 133)%nat || (n =? 160)%nat.

Definition is_quote (c : ascii) : bool :=
  (Ascii.eqb c squote || Ascii.eqb c dquote)%bool.

Fixpoint lstrip_with (p : ascii -> bool) (s : string) : string :=
  match s with
  | EmptyString => EmptyString
  | String c s' => if p c then lstrip_with p s' else s
  end.

Fixpoint rstrip_with (p : ascii -> bool) (s : string) : string :=
  match s with
  | EmptyString => EmptyString
  | String c s' =>
      match rstrip_with p s' with
      | EmptyString => if p c then EmptyString else String c EmptyString
      | String d r => String c (String d r)
      end
  end.

Definition strip_with (p : ascii -> bool) (s : string) : string :=
  rstrip_with p (lstrip_with p s).

(** The first character of [s], if any, is not one that [p] strips. *)
Definition head_kept (p : ascii -> bool) (s : string) : Prop :=
  match s with
  | EmptyString => True
  | String c _ => p c = false
  end.

(** [v.strip()] and [v.strip(chars)]: only [str] has the method. *)
Definition strip (v : pyval) : pyres pyval :=
  match v with
  | PStr s => Ok (PStr (strip_with is_space s))
  | _ => Raise (AttributeError (type_name v) "strip")
  end.

Definition strip_chars (p : ascii -> bool) (v : pyval) : pyres pyval :=
  match v with
  | PStr s => Ok (PStr (strip_with p s))
  | _ => Raise (AttributeError (type_name v) "strip")
  end.

(** [v.startswith(prefixes)] for a tuple of prefixes. *)
Definition startswith (v : pyval) (prefixes : list string) : pyres bool :=
  match v with
  | PStr s => Ok (existsb (fun p => String.prefix p s) prefixes)
  | _ => Raise (AttributeError (type_name v) "startswith")
  end.

Fixpoint take (n : nat) (s : string) : string :=
  match n, s with
  | S n', String c s' => String c (take n' s')
  | _, _ => EmptyString
  end.

(** [v[:n]]: of the scalars only [str] can be sliced. *)
Definition slice_to (n : nat) (v : pyval) : pyres pyval :=
  match v with
  | PStr s => Ok (PStr (take n s))
  | _ => Raise (TypeError (cat [String squote EmptyString; type_name v;
                                String squote EmptyString;
                                " object is not subscriptable"]))
  end.

(** [d[key]] and [d.get(key, default)] on a dict with string keys. *)
Definition getitem (d : gmap string pyval) (key : string) : pyres pyval :=
  match d !! key with
  | Some v => Ok v
  | None => Raise (KeyError key)
  end.

Definition get (d : gmap string pyval) (key : string) (dflt : pyval) : pyval :=
  default dflt (d !! key).

End Py.
Export Py.

Notation "'let?' x ':=' e 'in' k" := (pbind e (fun x => k))
  (at level 10, x name, e at level 100, k at level 200).

(** ** The provider client, the process state and the handler monad *)

(** The five provider operations: [ddgs.text], [ddgs.images], [ddgs.videos],
    [ddgs.news], [ddgs.books]. *)
Inductive Method : Type := text_ | images | videos | news | books.

#[global] Instance Method_eq_dec : EqDecision Method.
Proof. solve_decision. Defined.

(** A [DDGS] object: [ddgs_id] is the identity of the Python object, the
    other fields are the constructor's keyword arguments. *)
Record DDGS : Type := mkDDGS {
  ddgs_id : nat;
  proxy : option string;
  timeout : Z;
  verify : bool
}.

(** Where a provider call runs: on the thread of the asyncio event loop
    that accepts the invocations, or on a worker thread
    ([asyncio.to_thread]). *)
Inductive Context : Type := EventLoop | WorkerThread.

(** What a provider call does: it returns a list of result dicts, raises
    an exception that is an instance of [Exception] ([msg] is its [str]),
    or raises one that is not ([Aborts], with the name of the class). *)
Inductive Outcome : Type :=
| Returns (results : list (gmap string pyval))
| Raises (msg : string)
| Aborts (class msg : string).

Inductive Event : Type :=
| EvNew (client : DDGS)
| EvCall (ctx : Context) (client : DDGS) (method : Method)
         (kwargs : list (string * pyval)) (out : Outcome).

(** The process state: the module-level global [ddgs_instance], the next
    fresh object identity and the history of constructor and provider
    calls, oldest first. *)
Record World : Type := mkWorld {
  ddgs_instance : option DDGS;
  next_id : nat;
  trace : list Event
}.

Definition initial_world : World :=
  {| ddgs_instance := None; next_id := 0; trace := [] |}.

(** The provider is opaque: its answer may depend on the moment of the call
    (the number of events before it), the client and the arguments. *)
Definition Provider : Type :=
  nat -> DDGS -> Method -> list (string * pyval) -> Outcome.

Record TextContent : Type := mkTextContent {
  type : string;
  text : string
}.

Definition M (A : Type) : Type := World -> pyres A * World.

Definition ret {A} (a : A) : M A := fun w => (Ok a, w).

Definition raise {A} (e : exn) : M A := fun w => (Raise e, w).

Definition bind {A B} (m : M A) (f : A -> M B) : M B :=
  fun w =>
    match m w with
    | (Ok a, w') => f a w'
    | (Raise e, w') => (Raise e, w')
    end.

Definition lift {A} (x : pyres A) : M A := fun w => (x, w).

(** [try: body except Exception as e: handler(e)]: an exception that is
    not an instance of [Exception] is not caught. *)
Definition try_except {A} (body : M A) (handler : exn -> M A) : M A :=
  fun w =>
    match body w with
    | (Ok a, w') => (Ok a, w')
    | (Raise e, w') => if is_exception e then handler e w' else (Raise e, w')
    end.

(** The outcome of a [try] body, handed to the code after it. *)
Definition attempt {A} (body : M A) : M (pyres A) :=
  fun w => let '(r, w') := body w in (Ok r, w').

Notation "'let*' x ':=' e 'in' k" := (bind e (fun x => k))
  (at level 10, x name, e at level 100, k at level 200).

Definition log_event (ev : Event) (w : World) : World :=
  {| ddgs_instance := ddgs_instance w;
     next_id := next_id w;
     trace := trace w ++ [ev] |}.

(** [DDGS(proxy=proxy, timeout=timeout, verify=verify)]; the constructor of
    the provider library is taken not to raise. *)
Definition DDGS_new (proxy : option string) (timeout : Z) (verify : bool) : M DDGS :=
  fun w =>
    let client := mkDDGS (next_id w) proxy timeout verify in
    (Ok client,
     {| ddgs_instance := ddgs_instance w;
        next_id := S (next_id w);
        trace := trace w ++ [EvNew client] |}).

Definition set_ddgs_instance (client : DDGS) : M unit :=
  fun w =>
    (Ok tt,
     {| ddgs_instance := Some client; next_id := next_id w; trace := trace w |}).

(** Truth value of an [Optional[str]]. *)
Definition truthy_opt (proxy : option string) : bool :=
  match proxy with
  | Some (String _ _) => true
  | _ => false
  end.

(** [get_ddgs_instance(proxy=None, timeout=10)] *)
Definition get_ddgs_instance (proxy : option string) (timeout : Z) : M DDGS :=
  fun w =>
    match ddgs_instance w with
    | Some cached =>
        if truthy_opt proxy then
          (let* client := DDGS_new proxy timeout true in
           let* _ := set_ddgs_instance client in
           ret client) w
        else (Ok cached, w)
    | None =>
        (let* client := DDGS_new proxy timeout true in
         let* _ := set_ddgs_instance client in
         ret client) w
    end.

Definition is_empty {A} (l : list A) : bool :=
  match l with
  | [] => true
  | _ => false
  end.

(** ** Rendering of the results *)

Definition text_content (s : string) : TextContent :=
  {| type := "text"; text := s |}.

(** The loop [for i, result in enumerate(results, i): formatted_results.append(f i result)];
    the first entry that raises ends it. *)
Fixpoint for_each_from {A} (f : nat -> A -> pyres string) (i : nat) (l : list A)
    : pyres (list string) :=
  match l with
  | [] => Ok []
  | x :: l' =>
      let? entry := f i x in
      let? rest := for_each_from f (S i) l' in
      Ok (entry :: rest)
  end.

(** Lines 358-360 of [handle_text_search]: the URL of a text result. *)
Definition text_result_url (result : gmap string pyval) : pyres pyval :=
  let url := get result "href" (PStr "N/A") in
  if truthy url && negb (py_eq url (PStr "N/A")) then
    let? http := startswith url ["http://"; "https://"] in
    if negb http then
      let? slashes := startswith url ["//"] in
      Ok (PStr (if negb slashes then cat ["https://"; str url]
                else cat ["https:"; str url]))
    else Ok url
  else Ok url.

Definition format_text_result (i : nat) (result : gmap string pyval) : pyres string :=
  let? url := text_result_url result in
  Ok (cat [str_nat i; ". "; str (get result "title" (PStr "No title")); nl;
           "   URL: "; str url; nl;
           "   "; str (get result "body" (PStr "No description")); nl]).

Definition format_image_result (i : nat) (result : gmap string pyval) : pyres string :=
  Ok (cat [str_nat i; ". **"; str (get result "title" (PStr "No title")); "**"; nl;
           "   Image: "; str (get result "image" (PStr "N/A")); nl;
           "   Thumbnail: "; str (get result "thumbnail" (PStr "N/A")); nl;
           "   Source: "; str (get result "url" (PStr "N/A")); nl;
           "   Dimensions: "; str (get result "width" (PStr "?")); "x";
           str (get result "height" (PStr "?")); nl]).

Definition format_video_result (i : nat) (result : gmap string pyval) : pyres string :=
  let? description := slice_to 200 (get result "description" (PStr "No description")) in
  Ok (cat [str_nat i; ". **"; str (get result "title" (PStr "No title")); "**"; nl;
           "   URL: "; str (get result "content" (PStr "N/A")); nl;
           "   Duration: "; str (get result "duration" (PStr "N/A")); nl;
           "   Publisher: "; str (get result "publisher" (PStr "N/A")); nl;
           "   Published: "; str (get result "published" (PStr "N/A")); nl;
           "   Description: "; str description; "..."; nl]).

Definition format_news_result (i : nat) (result : gmap string pyval) : pyres string :=
  Ok (cat [str_nat i; ". **"; str (get result "title" (PStr "No title")); "**"; nl;
           "   Source: "; str (get result "source" (PStr "N/A")); nl;
           "   Date: "; str (get result "date" (PStr "N/A")); nl;
           "   URL: "; str (get result "url" (PStr "N/A")); nl;
           "   "; str (get result "body" (PStr "No description")); nl]).

Definition format_book_result (i : nat) (result : gmap string pyval) : pyres string :=
  Ok (cat [str_nat i; ". **"; str (get result "title" (PStr "No title")); "**"; nl;
           "   Author: "; str (get result "author" (PStr "N/A")); nl;
           "   Publisher: "; str (get result "publisher" (PStr "N/A")); nl;
           "   Info: "; str (get result "info" (PStr "N/A")); nl;
           "   URL: "; str (get result "url" (PStr "N/A")); nl]).

(** The text after the loop: [f"Found {len(results)} <what>:\n\n" + "\n".join(formatted_results)]. *)
Definition found (what : string) (results : list (gmap string pyval))
    (formatted_results : list string) : string :=
  cat ["Found "; str_nat (length results); " "; what; ":"; nl; nl;
       String.concat nl formatted_results].

(** ** Argument cleaning of [handle_text_search] (lines 303-327) *)

(** The local variables of [handle_text_search] when the client is built. *)
Record TextSearchRequest : Type := mkTextSearchRequest {
  ts_query : pyval;
  ts_region : pyval;
  ts_safesearch : pyval;
  ts_timelimit : pyval;
  ts_max_results : pyval;
  ts_backend : pyval;
  ts_proxy_value : option string
}.

Definition text_search_request (arguments : gmap string pyval) : pyres TextSearchRequest :=
  let? query := getitem arguments "query" in
  let region := get arguments "region" (PStr "us-en") in
  let safesearch := get arguments "safesearch" (PStr "moderate") in
  let timelimit := get arguments "timelimit" PNone in
  let max_results := get arguments "max_results" (PInt 10) in
  let backend := get arguments "backend" (PStr "auto") in
  let proxy := get arguments "proxy" PNone in
  let? backend :=
    (if truthy backend then
       let? stripped := strip backend in
       strip_chars is_quote stripped
     else Ok backend) in
  let backend :=
    if negb (truthy backend) || py_eq backend (PStr "auto")
    then PStr "duckduckgo" else backend in
  let proxy_value :=
    match proxy with
    | PStr s =>
        if truthy proxy && truthy (PStr (strip_with is_space s))
           && negb (String.eqb (strip_with is_space s) EmptyString)
        then Some (strip_with is_space s) else None
    | _ => None
    end in
  Ok (mkTextSearchRequest query region safesearch timelimit max_results
        backend proxy_value).

Definition text_kwargs (r : TextSearchRequest) : list (string * pyval) :=
  [("query", ts_query r); ("region", ts_region r);
   ("safesearch", ts_safesearch r); ("timelimit", ts_timelimit r);
   ("max_results", ts_max_results r); ("page", PInt 1);
   ("backend", ts_backend r)].

Section Server.

Variable provider : Provider.

(** A provider operation [client.method] on the keyword arguments [kwargs], run in context [ctx]. *)
Definition call (ctx : Context) (client : DDGS) (method : Method)
    (kwargs : list (string * pyval)) : M (list (gmap string pyval)) :=
  fun w =>
    let out := provider (length (trace w)) client method kwargs in
    let w' := log_event (EvCall ctx client method kwargs out) w in
    match out with
    | Returns results => (Ok results, w')
    | Raises msg => (Raise (ProviderError msg), w')
    | Aborts class msg => (Raise (BaseExceptionOnly class msg), w')
    end.

(** [await asyncio.to_thread(client.method, ...)] *)
Definition to_thread (client : DDGS) (method : Method)
    (kwargs : list (string * pyval)) : M (list (gmap string pyval)) :=
  call WorkerThread client method kwargs.

(** [client.method] on the keyword arguments [kwargs], written directly in the coroutine. *)
Definition direct (client : DDGS) (method : Method)
    (kwargs : list (string * pyval)) : M (list (gmap string pyval)) :=
  call EventLoop client method kwargs.

(** ** The handlers *)

Definition handle_text_search (arguments : gmap string pyval) : M (list TextContent) :=
  try_except
    (let* request := lift (text_search_request arguments) in
     let* ddgs := DDGS_new (ts_proxy_value request) 10 true in
     let* search := attempt (to_thread ddgs text_ (text_kwargs request)) in
     match search with
     | Raise search_error =>
         if is_exception search_error then
           ret [text_content (cat ["Search failed: "; str_exn search_error; nl;
                                   "Try a simpler query or different parameters."])]
         else raise search_error
     | Ok results =>
         if is_empty results then ret [text_content "No results found."]
         else
           let* formatted_results := lift (for_each_from format_text_result 1 results) in
           ret [text_content (found "results" results formatted_results)]
     end)
    (fun e =>
       ret [text_content (cat ["Search error: "; str_exn e; nl;
                               "Please try again with different parameters."])]).

Definition handle_image_search (arguments : gmap string pyval) : M (list TextContent) :=
  let* query := lift (getitem arguments "query") in
  let region := get arguments "region" (PStr "us-en") in
  let safesearch := get arguments "safesearch" (PStr "moderate") in
  let timelimit := get arguments "timelimit" PNone in
  let max_results := get arguments "max_results" (PInt 10) in
  let size := get arguments "size" PNone in
  let color := get arguments "color" PNone in
  let type_image := get arguments "type_image" PNone in
  let layout := get arguments "layout" PNone in
  let license_image := get arguments "license_image" PNone in
  let* ddgs := get_ddgs_instance None 10 in
  let* results :=
    direct ddgs images
      [("query", query); ("region", region); ("safesearch", safesearch);
       ("timelimit", timelimit); ("max_results", max_results); ("size", size);
       ("color", color); ("type_image", type_image); ("layout", layout);
       ("license_image", license_image)] in
  if is_empty results then ret [text_content "No images found."]
  else
    let* formatted_results := lift (for_each_from format_image_result 1 results) in
    ret [text_content (found "images" results formatted_results)].

Definition handle_video_search (arguments : gmap string pyval) : M (list TextContent) :=
  let* query := lift (getitem arguments "query") in
  let region := get arguments "region" (PStr "us-en") in
  let safesearch := get arguments "safesearch" (PStr "moderate") in
  let timelimit := get arguments "timelimit" PNone in
  let max_results := get arguments "max_results" (PInt 10) in
  let resolution := get arguments "resolution" PNone in
  let duration := get arguments "duration" PNone in
  let license_videos := get arguments "license_videos" PNone in
  let* ddgs := get_ddgs_instance None 10 in
  let* results :=
    direct ddgs videos
      [("query", query); ("region", region); ("safesearch", safesearch);
       ("timelimit", timelimit); ("max_results", max_results);
       ("resolution", resolution); ("duration", duration);
       ("license_videos", license_videos)] in
  if is_empty results then ret [text_content "No videos found."]
  else
    let* formatted_results := lift (for_each_from format_video_result 1 results) in
    ret [text_content (found "videos" results formatted_results)].

Definition handle_news_search (arguments : gmap string pyval) : M (list TextContent) :=
  let* query := lift (getitem arguments "query") in
  let region := get arguments "region" (PStr "us-en") in
  let safesearch := get arguments "safesearch" (PStr "moderate") in
  let timelimit := get arguments "timelimit" PNone in
  let max_results := get arguments "max_results" (PInt 10) in
  let backend := get arguments "backend" (PStr "auto") in
  let* ddgs := get_ddgs_instance None 10 in
  let* results :=
    direct ddgs news
      [("query", query); ("region", region); ("safesearch", safesearch);
       ("timelimit", timelimit); ("max_results", max_results);
       ("backend", backend)] in
  if is_empty results then ret [text_content "No news found."]
  else
    let* formatted_results := lift (for_each_from format_news_result 1 results) in
    ret [text_content (found "news articles" results formatted_results)].

Definition handle_book_search (arguments : gmap string pyval) : M (list TextContent) :=
  let* query := lift (getitem arguments "query") in
  let max_results := get arguments "max_results" (PInt 10) in
  let* ddgs := get_ddgs_instance None 10 in
  let* results :=
    direct ddgs books [("query", query); ("max_results", max_results)] in
  if is_empty results then ret [text_content "No books found."]
  else
    let* formatted_results := lift (for_each_from format_book_result 1 results) in
    ret [text_content (found "books" results formatted_results)].

Definition handle_call_tool (name : string) (arguments : gmap string pyval)
    : M (list TextContent) :=
  try_except
    (if String.eqb name "ddgs_text_search" then handle_text_search arguments
     else if String.eqb name "ddgs_image_search" then handle_image_search arguments
     else if String.eqb name "ddgs_video_search" then handle_video_search arguments
     else if String.eqb name "ddgs_news_search" then handle_news_search arguments
     else if String.eqb name "ddgs_book_search" then handle_book_search arguments
     else raise (ValueError (cat ["Unknown tool: "; name])))
    (fun e => ret [text_content (cat ["Error executing search: "; str_exn e])]).

End Server.

(** ** The tool registry ([handle_list_tools]) *)

(** One entry of [inputSchema["properties"]]; the free-text descriptions
    are left out. *)
Record Property : Type := mkProperty {
  p_type : string;
  p_enum : option (list string);
  p_default : option pyval;
  p_minimum : option Z;
  p_maximum : option Z
}.

Record Tool : Type := mkTool {
  name : string;
  properties : list (string * Property);
  required : list string
}.

Definition string_property : Property :=
  mkProperty "string" None None None None.

Definition string_default (d : string) : Property :=
  mkProperty "string" None (Some (PStr d)) None None.

Definition enum_property (values : list string) : Property :=
  mkProperty "string" (Some values) None None None.

Definition safesearch_property : Property :=
  mkProperty "string" (Some ["on"; "moderate"; "off"]) (Some (PStr "moderate"))
    None None.

Definition max_results_property : Property :=
  mkProperty "integer" None (Some (PInt 10)) (Some 1) (Some 100).

Definition handle_list_tools : list Tool :=
  [ mkTool "ddgs_text_search"
      [("query", string_property);
       ("region", string_default "us-en");
       ("safesearch", safesearch_property);
       ("timelimit", enum_property ["d"; "w"; "m"; "y"]);
       ("max_results", max_results_property);
       ("backend", string_default "auto");
       ("proxy", string_property)]
      ["query"];
    mkTool "ddgs_image_search"
      [("query", string_property);
       ("region", string_default "us-en");
       ("safesearch", safesearch_property);
       ("timelimit", enum_property ["d"; "w"; "m"; "y"]);
       ("max_results", max_results_property);
       ("size", enum_property ["Small"; "Medium"; "Large"; "Wallpaper"]);
       ("color", enum_property ["color"; "Monochrome"; "Red"; "Orange"; "Yellow";
                                "Green"; "Blue"; "Purple"; "Pink"; "Brown";
                                "Black"; "Gray"; "Teal"; "White"]);
       ("type_image", enum_property ["photo"; "clipart"; "gif"; "transparent"; "line"]);
       ("layout", enum_property ["Square"; "Tall"; "Wide"]);
       ("license_image", enum_property ["any"; "Public"; "Share"; "ShareCommercially";
                                        "Modify"; "ModifyCommercially"])]
      ["query"];
    mkTool "ddgs_video_search"
      [("query", string_property);
       ("region", string_default "us-en");
       ("safesearch", safesearch_property);
       ("timelimit", enum_property ["d"; "w"; "m"]);
       ("max_results", max_results_property);
       ("resolution", enum_property ["high"; "standard"]);
       ("duration", enum_property ["short"; "medium"; "long"]);
       ("license_videos", enum_property ["creativeCommon"; "youtube"])]
      ["query"];
    mkTool "ddgs_news_search"
      [("query", string_property);
       ("region", string_default "us-en");
       ("safesearch", safesearch_property);
       ("timelimit", enum_property ["d"; "w"; "m"]);
       ("max_results", max_results_property);
       ("backend", string_default "auto")]
      ["query"];
    mkTool "ddgs_book_search"
      [("query", string_property);
       ("max_results", max_results_property)]
      ["query"] ].

Definition tool_names : list string := map name handle_list_tools.

(** ** Observations on a run *)

(** The server handles the invocations it receives one after the other. *)
Fixpoint serve (provider : Provider)
    (invocations : list (string * gmap string pyval)) (w : World) : World :=
  match invocations with
  | [] => w
  | (tool, arguments) :: rest =>
      serve provider rest (snd (handle_call_tool provider tool arguments w))
  end.

(** The events a handler added to the history when it took [w] to [w']. *)
Definition new_events (w w' : World) : list Event :=
  drop (length (trace w)) (trace w').

Definition is_call (ev : Event) : bool :=
  match ev with
  | EvCall _ _ _ _ _ => true
  | EvNew _ => false
  end.

(** The keyword arguments of the provider calls among [evs]. *)
Definition call_kwargs (ev : Event) : option (list (string * pyval)) :=
  match ev with
  | EvCall _ _ _ kwargs _ => Some kwargs
  | EvNew _ => None
  end.

Definition call_context (ev : Event) : option Context :=
  match ev with
  | EvCall ctx _ _ _ _ => Some ctx
  | EvNew _ => None
  end.

(** The client of a provider call other than [ddgs.text]. *)
Definition shared_call_client (ev : Event) : option DDGS :=
  match ev with
  | EvCall _ client text_ _ _ => None
  | EvCall _ client _ _ _ => Some client
  | EvNew _ => None
  end.

(** The identity of the client of a [ddgs.text] call. *)
Definition text_call_id (ev : Event) : option nat :=
  match ev with
  | EvCall _ client text_ _ _ => Some (ddgs_id client)
  | _ => None
  end.

(** The client of any provider call. *)
Definition call_client (ev : Event) : option DDGS :=
  match ev with
  | EvCall _ client _ _ _ => Some client
  | EvNew _ => None
  end.

(** The first value listed under [key]. *)
Fixpoint assoc {A} (key : string) (l : list (string * A)) : option A :=
  match l with
  | [] => None
  | (k, v) :: rest => if String.eqb k key then Some v else assoc key rest
  end.

(** [kwargs[key]] of a keyword-argument list. *)
Definition kwarg (key : string) (kwargs : list (string * pyval)) : option pyval :=
  assoc key kwargs.

(** [needle in hay] *)
Fixpoint contains (needle hay : string) : bool :=
  String.prefix needle hay ||
  match hay with
  | EmptyString => false
  | String _ hay' => contains needle hay'
  end.


(** The text each handler returns under [if not results]. *)
Definition no_results_message (m : Method) : string :=
  match m with
  | text_ => "No results found."
  | images => "No images found."
  | videos => "No videos found."
  | news => "No news found."
  | books => "No books found."
  end.

Definition method_of_tool (tool : string) : option Method :=
  if String.eqb tool "ddgs_text_search" then Some text_
  else if String.eqb tool "ddgs_image_search" then Some images
  else if String.eqb tool "ddgs_video_search" then Some videos
  else if String.eqb tool "ddgs_news_search" then Some news
  else if String.eqb tool "ddgs_book_search" then Some books
  else None.

(** The per-kind entry template. *)
Definition format_result (m : Method) : nat -> gmap string pyval -> pyres string :=
  match m with
  | text_ => format_text_result
  | images => format_image_result
  | videos => format_video_result
  | news => format_news_result
  | books => format_book_result
  end.

(** The literal fallbacks the entry template of each kind passes to [get]. *)
Definition placeholders (m : Method) : gmap string pyval :=
  match m with
  | text_ =>
      {[ "title" := PStr "No title"; "href" := PStr "N/A";
         "body" := PStr "No description" ]}
  | images =>
      {[ "title" := PStr "No title"; "image" := PStr "N/A";
         "thumbnail" := PStr "N/A"; "url" := PStr "N/A";
         "width" := PStr "?"; "height" := PStr "?" ]}
  | videos =>
      {[ "title" := PStr "No title"; "content" := PStr "N/A";
         "duration" := PStr "N/A"; "publisher" := PStr "N/A";
         "published" := PStr "N/A"; "description" := PStr "No description" ]}
  | news =>
      {[ "title" := PStr "No title"; "source" := PStr "N/A";
         "date" := PStr "N/A"; "url" := PStr "N/A";
         "body" := PStr "No description" ]}
  | books =>
      {[ "title" := PStr "No title"; "author" := PStr "N/A";
         "publisher" := PStr "N/A"; "info" := PStr "N/A"; "url" := PStr "N/A" ]}
  end.

Definition is_str (v : pyval) : Prop := exists s, v = PStr s.

(** The fields the templates call a [str] method on or slice: when present
    they have to be strings. *)
Definition string_fields (m : Method) (result : gmap string pyval) : Prop :=
  match m with
  | text_ => forall v, result !! "href" = Some v -> is_str v
  | videos => forall v, result !! "description" = Some v -> is_str v
  | _ => True
  end.

(** The results whose entry can be rendered: the 'href' of a text result
    gets past line 359 when it is absent, a string or falsy, and the
    'description' of a video result can be sliced when it is absent or a
    string; the other fields are only formatted. *)
Definition renderable (m : Method) (result : gmap string pyval) : Prop :=
  match m with
  | text_ => forall v, result !! "href" = Some v -> is_str v \/ truthy v = false
  | videos => forall v, result !! "description" = Some v -> is_str v
  | _ => True
  end.

(** A cleaned text request fed back as an argument mapping. *)
Definition request_arguments (r : TextSearchRequest) : gmap string pyval :=
  {[ "query" := ts_query r; "region" := ts_region r;
     "safesearch" := ts_safesearch r; "timelimit" := ts_timelimit r;
     "max_results" := ts_max_results r; "backend" := ts_backend r;
     "proxy" := from_option PStr PNone (ts_proxy_value r) ]}.

(** The backend a second pass of the cleaning steps settles on, for a
    backend string [b] that is not empty. *)
Definition backend_again (b : string) : pyval :=
  let b2 := strip_with is_quote (strip_with is_space b) in
  if negb (truthy (PStr b2)) || py_eq (PStr b2) (PStr "auto")
  then PStr "duckduckgo" else PStr b2.

(** The part the four handlers without [try] share once the arguments are
    read: take the cached client, call the provider on the event loop,
    render. *)
Definition search_shared (provider : Provider) (m : Method)
    (kwargs : list (string * pyval)) (what : string)
    (fmt : nat -> gmap string pyval -> pyres string) : M (list TextContent) :=
  let* ddgs := get_ddgs_instance None 10 in
  let* results := direct provider ddgs m kwargs in
  if is_empty results then ret [text_content (no_results_message m)]
  else
    let* formatted_results := lift (for_each_from fmt 1 results) in
    ret [text_content (found what results formatted_results)].

(** What [get_ddgs_instance()] returns in [w], and the state it leaves. *)
Definition shared_client (w : World) : DDGS :=
  default (mkDDGS (next_id w) None 10 true) (ddgs_instance w).

Definition with_shared_client (w : World) : World :=
  match ddgs_instance w with
  | Some _ => w
  | None =>
      {| ddgs_instance := Some (shared_client w);
         next_id := S (next_id w);
         trace := trace w ++ [EvNew (shared_client w)] |}
  end.

(** What a handler without [try] makes of the provider's answer. *)
Definition render (m : Method) (what : string)
    (fmt : nat -> gmap string pyval -> pyres string) (out : Outcome)
    : pyres (list TextContent) :=
  match out with
  | Raises msg => Raise (ProviderError msg)
  | Aborts class msg => Raise (BaseExceptionOnly class msg)
  | Returns results =>
      if is_empty results then Ok [text_content (no_results_message m)]
      else
        let? formatted_results := for_each_from fmt 1 results in
        Ok [text_content (found what results formatted_results)]
  end.

(** What [handle_call_tool] makes of a handler's outcome. *)
Definition recover (r : pyres (list TextContent)) : pyres (list TextContent) :=
  match r with
  | Ok response => Ok response
  | Raise e =>
      if is_exception e
      then Ok [text_content (cat ["Error executing search: "; str_exn e])]
      else Raise e
  end.

(** What [handle_text_search] makes of the provider's answer. *)
Definition text_response (out : Outcome) : pyres (list TextContent) :=
  match out with
  | Raises msg =>
      Ok [text_content (cat ["Search failed: "; msg; nl;
                             "Try a simpler query or different parameters."])]
  | Aborts class msg => Raise (BaseExceptionOnly class msg)
  | Returns results =>
      if is_empty results then Ok [text_content "No results found."]
      else
        match for_each_from format_text_result 1 results with
        | Ok formatted_results =>
            Ok [text_content (found "results" results formatted_results)]
        | Raise e =>
            if is_exception e then
              Ok [text_content (cat ["Search error: "; str_exn e; nl;
                                     "Please try again with different parameters."])]
            else Raise e
        end
  end.

(** The state after the client of a text search is built. *)
Definition text_client (r : TextSearchRequest) (w : World) : DDGS :=
  mkDDGS (next_id w) (ts_proxy_value r) 10 true.

Definition with_text_client (r : TextSearchRequest) (w : World) : World :=
  {| ddgs_instance := ddgs_instance w;
     next_id := S (next_id w);
     trace := trace w ++ [EvNew (text_client r w)] |}.

(** The invariant of the client cache over a run of the server. *)
Record cache_invariant (w : World) : Prop := mkCacheInvariant {
  cached_without_proxy :
    forall c, ddgs_instance w = Some c ->
      proxy c = None /\ timeout c = 10 /\ verify c = true
      /\ (ddgs_id c < next_id w)%nat;
  shared_calls_use_cache :
    forall c, c ∈ omap shared_call_client (trace w) -> ddgs_instance w = Some c;
  text_clients_distinct : NoDup (omap text_call_id (trace w));
  text_clients_allocated :
    forall id, id ∈ omap text_call_id (trace w) -> (id < next_id w)%nat;
  text_clients_private :
    forall c, ddgs_instance w = Some c ->
      ddgs_id c ∉ omap text_call_id (trace w)
}.

(** One step of the server, as far as the cache is concerned. *)
Inductive cache_step (w : World) : World -> Prop :=
| step_idle : cache_step w w
| step_text (r : TextSearchRequest) (out : Outcome) :
    cache_step w
      (log_event
         (EvCall WorkerThread (text_client r w) text_ (text_kwargs r) out)
         (with_text_client r w))
| step_shared (m : Method) (kwargs : list (string * pyval)) (out : Outcome) :
    m <> text_ ->
    cache_step w
      (log_event (EvCall EventLoop (shared_client w) m kwargs out)
         (with_shared_client w)).

(** ** The validation in front of the handlers *)

(** Modelled from the spec: the constraints of a parameter contract that
    the validation of section 4.2 checks (a missing required field, a type
    mismatch, a value not in the enumeration, a number out of
    [minimum, maximum]).  The validation itself is done by the MCP server
    library behind the decorator [@app.call_tool()] of line 274, which is
    not part of the repository. *)
Inductive Constraint : Type :=
| MissingRequired
| TypeMismatch (expected : string)
| NotInEnum (allowed : list string)
| BelowMinimum (minimum : Z)
| AboveMaximum (maximum : Z).

(** Modelled from the spec: a validation error identifies the offending
    parameter and the violated constraint. *)
Record ValidationError : Type := mkValidationError {
  parameter : string;
  violated : Constraint
}.

(** Modelled from the spec: whether a value has the type a schema names;
    the schemas of [handle_list_tools] name "string" and "integer" only,
    and a boolean is not an integer. *)
Definition has_type (ty : string) (v : pyval) : bool :=
  if String.eqb ty "string" then
    match v with PStr _ => true | _ => false end
  else if String.eqb ty "integer" then
    match v with PInt _ => true | _ => false end
  else true.

Definition in_enum (allowed : list string) (v : pyval) : bool :=
  match v with
  | PStr s => existsb (String.eqb s) allowed
  | _ => false
  end.

(** Modelled from the spec: the constraints of the schema entry [p] that
    the value [v] supplied for the parameter [key] violates. *)
Definition check_property (key : string) (p : Property) (v : pyval)
    : list ValidationError :=
  ((if has_type (p_type p) v then []
    else [mkValidationError key (TypeMismatch (p_type p))])
   ++ (match p_enum p with
       | Some allowed =>
           if in_enum allowed v then []
           else [mkValidationError key (NotInEnum allowed)]
       | None => []
       end)
   ++ (match p_minimum p, v with
       | Some minimum, PInt n =>
           if Z.ltb n minimum
           then [mkValidationError key (BelowMinimum minimum)] else []
       | _, _ => []
       end)
   ++ (match p_maximum p, v with
       | Some maximum, PInt n =>
           if Z.ltb maximum n
           then [mkValidationError key (AboveMaximum maximum)] else []
       | _, _ => []
       end))%list.

Definition check_required (arguments : gmap string pyval) (key : string)
    : list ValidationError :=
  match arguments !! key with
  | Some _ => []
  | None => [mkValidationError key MissingRequired]
  end.

Definition check_supplied (arguments : gmap string pyval)
    (entry : string * Property) : list ValidationError :=
  match arguments !! fst entry with
  | Some v => check_property (fst entry) (snd entry) v
  | None => []
  end.

(** Modelled from the spec: the validation of an argument mapping against
    the input schema of a tool, which the MCP server library performs
    before it calls [handle_call_tool]; arguments the schema does not
    declare are ignored. *)
Definition validate (t : Tool) (arguments : gmap string pyval)
    : list ValidationError :=
  (flat_map (check_required arguments) (required t)
   ++ flat_map (check_supplied arguments) (properties t))%list.

(** What an invocation gets back: the validation errors, or what
    [handle_call_tool] made of it. *)
Inductive Reply : Type :=
| Rejected (errors : list ValidationError)
| Handled (result : pyres (list TextContent)).

(** Modelled from the spec: the pipeline the decorator [@app.call_tool()]
    registers: the arguments of a tool that [handle_list_tools] lists are
    validated against its input schema, and [handle_call_tool] is called
    only when they pass; a tool that is not listed is not validated. *)
Definition call_tool (provider : Provider) (tool : string)
    (arguments : gmap string pyval) (w : World) : Reply * World :=
  match find (fun t => String.eqb (name t) tool) handle_list_tools with
  | Some t =>
      match validate t arguments with
      | [] =>
          (Handled (fst (handle_call_tool provider tool arguments w)),
           snd (handle_call_tool provider tool arguments w))
      | errors => (Rejected errors, w)
      end
  | None =>
      (Handled (fst (handle_call_tool provider tool arguments w)),
       snd (handle_call_tool provider tool arguments w))
  end.

(** ** The claims of the specification that the code does not meet as stated *)

(** [handle_call_tool], called directly, rejects an out-of-range
    [max_results] before the provider is called and passes an in-range one
    unchanged. *)
Definition max_results_validated : Prop :=
  forall (provider : Provider) (tool : string) (arguments : gmap string pyval)
         (w : World) (n : Z),
    tool ∈ tool_names ->
    arguments !! "max_results" = Some (PInt n) ->
    let response := fst (handle_call_tool provider tool arguments w) in
    let w' := snd (handle_call_tool provider tool arguments w) in
    if (1 <=? n)%Z && (n <=? 100)%Z then
      forall kwargs, kwargs ∈ omap call_kwargs (new_events w w') ->
                     kwarg "max_results" kwargs = Some (PInt n)
    else
      omap call_kwargs (new_events w w') = []
      /\ exists t, response = Ok [text_content t]
                   /\ contains "max_results" t = true.

(** All provider calls made through a client without proxy use one and the
    same client. *)
Definition one_client_for_no_proxy : Prop :=
  forall (provider : Provider) (invocations : list (string * gmap string pyval))
         (c1 c2 : DDGS),
    let w := serve provider invocations initial_world in
    c1 ∈ omap call_client (trace w) ->
    c2 ∈ omap call_client (trace w) ->
    proxy c1 = None -> proxy c2 = None -> c1 = c2.

(** Formatting a result sequence of any kind never raises. *)
Definition formatting_never_raises : Prop :=
  forall (m : Method) (results : list (gmap string pyval)),
    exists formatted, for_each_from (format_result m) 1 results = Ok formatted.

(** The URL rewriting in the words of the specification. *)
Definition rewritten_url (u : string) : string :=
  if String.prefix "http://" u || String.prefix "https://" u then u
  else if String.prefix "//" u then cat ["https:"; u]
  else cat ["https://"; u].

Definition every_url_rewritten : Prop :=
  forall (result : gmap string pyval) (u : string),
    result !! "href" = Some (PStr u) ->
    text_result_url result = Ok (PStr (rewritten_url u)).

(** Cleaning a cleaned request changes nothing. *)
Definition normalization_idempotent : Prop :=
  forall (arguments : gmap string pyval) (r : TextSearchRequest),
    text_search_request arguments = Ok r ->
    text_search_request (request_arguments r) = Ok r.

(** ** Concrete providers and invocations *)


Definition one_result : gmap string pyval :=
  {[ "title" := PStr "Rust"; "href" := PStr "rust-lang.org";
     "body" := PStr "A language" ]}.

Definition one_result_provider : Provider := fun _ _ _ _ => Returns [one_result].

Definition null_description : gmap string pyval :=
  {[ "title" := PStr "Clip"; "description" := PNone ]}.

Definition null_description_provider : Provider :=
  fun _ _ _ _ => Returns [null_description].

Definition rust_query : gmap string pyval :=
  {[ "query" := PStr "rust programming" ]}.

Definition rust_query_500 : gmap string pyval :=
  {[ "query" := PStr "rust programming"; "max_results" := PInt 500 ]}.

Definition rust_query_2 : gmap string pyval :=
  {[ "query" := PStr "rust programming"; "max_results" := PInt 2 ]}.

Definition rust_query_auto : gmap string pyval :=
  {[ "query" := PStr "rust programming"; "backend" := PStr "auto" ]}.

Definition proxied_query : gmap string pyval :=
  {[ "query" := PStr "rust programming";
     "proxy" := PStr " socks5://127.0.0.1:9150 " ]}.

Definition mixed_invocations : list (string * gmap string pyval) :=
  [("ddgs_image_search", rust_query); ("ddgs_text_search", proxied_query);
   ("ddgs_news_search", rust_query); ("ddgs_text_search", rust_query)].

Definition two_text_searches : list (string * gmap string pyval) :=
  [("ddgs_text_search", rust_query); ("ddgs_text_search", rust_query)].

(** What the cleaning steps make of [rust_query_auto]. *)
Definition rust_request : TextSearchRequest :=
  mkTextSearchRequest (PStr "rust programming") (PStr "us-en") (PStr "moderate")
    PNone (PInt 10) (PStr "duckduckgo") None.

(** A backend written as quote, space, auto, space, quote. *)
Definition quoted_spaced_auto : string :=
  String squote (cat [" auto "; String squote EmptyString]).

Definition quoted_backend_arguments : gmap string pyval :=
  {[ "query" := PStr "rust programming"; "backend" := PStr quoted_spaced_auto ]}.

(** What the cleaning steps make of [quoted_backend_arguments]: the spaces
    inside the quotes stay. *)
Definition spaced_auto_request : TextSearchRequest :=
  mkTextSearchRequest (PStr "rust programming") (PStr "us-en") (PStr "moderate")
    PNone (PInt 10) (PStr " auto ") None.

(** A [backend] argument that is supplied and truthy is a string, as the
    input schema of the text and news tools declares it. *)
Definition backend_cleanable (arguments : gmap string pyval) : Prop :=
  forall v, arguments !! "backend" = Some v -> truthy v = true -> is_str v.

(** The keyword arguments the handlers for images, videos, news and books
    pass to the provider, read off the handlers. *)
Definition plain_kwargs (m : Method) (query : pyval)
    (arguments : gmap string pyval) : list (string * pyval) :=
  match m with
  | text_ => []
  | images =>
      [("query", query);
       ("region", get arguments "region" (PStr "us-en"));
       ("safesearch", get arguments "safesearch" (PStr "moderate"));
       ("timelimit", get arguments "timelimit" PNone);
       ("max_results", get arguments "max_results" (PInt 10));
       ("size", get arguments "size" PNone);
       ("color", get arguments "color" PNone);
       ("type_image", get arguments "type_image" PNone);
       ("layout", get arguments "layout" PNone);
       ("license_image", get arguments "license_image" PNone)]
  | videos =>
      [("query", query);
       ("region", get arguments "region" (PStr "us-en"));
       ("safesearch", get arguments "safesearch" (PStr "moderate"));
       ("timelimit", get arguments "timelimit" PNone);
       ("max_results", get arguments "max_results" (PInt 10));
       ("resolution", get arguments "resolution" PNone);
       ("duration", get arguments "duration" PNone);
       ("license_videos", get arguments "license_videos" PNone)]
  | news =>
      [("query", query);
       ("region", get arguments "region" (PStr "us-en"));
       ("safesearch", get arguments "safesearch" (PStr "moderate"));
       ("timelimit", get arguments "timelimit" PNone);
       ("max_results", get arguments "max_results" (PInt 10));
       ("backend", get arguments "backend" (PStr "auto"))]
  | books =>
      [("query", query);
       ("max_results", get arguments "max_results" (PInt 10))]
  end.

Definition what (m : Method) : string :=
  match m with
  | text_ => "results"
  | images => "images"
  | videos => "videos"
  | news => "news articles"
  | books => "books"
  end.

Definition tool_name (m : Method) : string :=
  match m with
  | text_ => "ddgs_text_search"
  | images => "ddgs_image_search"
  | videos => "ddgs_video_search"
  | news => "ddgs_news_search"
  | books => "ddgs_book_search"
  end.

(** ** Further observations on the handlers *)

(** The client an event names, built or called. *)
Definition event_client (ev : Event) : option DDGS :=
  match ev with
  | EvNew client => Some client
  | EvCall _ client _ _ _ => Some client
  end.

(** The client of an event, if it has one, has the timeout 10 and TLS
    verification switched on. *)
Definition configured (ev : Event) : Prop :=
  forall c, event_client ev = Some c -> timeout c = 10 /\ verify c = true.

(** The clients built so far are the private ones of the text searches that
    reached the provider and the shared one, if it is cached. *)
Definition clients_accounted (w : World) : Prop :=
  length (filter (fun ev => is_call ev = false) (trace w)) =
  (length (omap text_call_id (trace w))
   + match ddgs_instance w with Some _ => 1 | None => 0 end)%nat.

(** The last character of [s], if any, is not one that [p] strips. *)
Fixpoint last_kept (p : ascii -> bool) (s : string) : Prop :=
  match s with
  | EmptyString => True
  | String c EmptyString => p c = false
  | String _ s' => last_kept p s'
  end.

(** The text a handler answers when [arguments["query"]] raises: the text
    handler catches the [KeyError] itself, the others leave it to
    [handle_call_tool]. *)
Definition missing_query_text (m : Method) : string :=
  match m with
  | text_ =>
      cat ["Search error: "; str_exn (KeyError "query"); nl;
           "Please try again with different parameters."]
  | _ => cat ["Error executing search: "; str_exn (KeyError "query")]
  end.


(** The proxy a text search builds its client with, read off lines 324-326:
    the trimmed argument when it is a string with something left after
    trimming, no proxy otherwise. *)
Definition trimmed_proxy (proxy : option pyval) : option string :=
  match proxy with
  | Some (PStr s) =>
      if String.eqb (strip_with is_space s) EmptyString then None
      else Some (strip_with is_space s)
  | _ => None
  end.

Definition has_scheme (u : string) : bool :=
  String.prefix "http://" u || String.prefix "https://" u.

(** What a search with no argument but the query hands to the provider. *)
Definition only_query (query : pyval) : gmap string pyval :=
  {[ "query" := query ]}.



Definition long_description : string :=
  cat ["0123456789"; "0123456789"; "0123456789"; "0123456789"; "0123456789";
       "0123456789"; "0123456789"; "0123456789"; "0123456789"; "0123456789";
       "0123456789"; "0123456789"; "0123456789"; "0123456789"; "0123456789";
       "0123456789"; "0123456789"; "0123456789"; "0123456789"; "0123456789";
       "and more"].

(** * Properties *)

(** ** How the handlers run *)

Section Runs.

Variable provider : Provider.

Lemma get_ddgs_instance_no_proxy (w : World) :
  get_ddgs_instance None 10 w = (Ok (shared_client w), with_shared_client w).
Proof.
  unfold get_ddgs_instance, with_shared_client, shared_client.
  destruct (ddgs_instance w) as [cached|] eqn:Hc; reflexivity.
Qed.

Lemma search_shared_run (m : Method) (kwargs : list (string * pyval))
    (what : string) (fmt : nat -> gmap string pyval -> pyres string) (w : World) :
  let out := provider (length (trace (with_shared_client w))) (shared_client w) m kwargs in
  search_shared provider m kwargs what fmt w =
    (render m what fmt out,
     log_event (EvCall EventLoop (shared_client w) m kwargs out) (with_shared_client w)).
Proof.
  intros out. unfold search_shared, bind.
  rewrite get_ddgs_instance_no_proxy.
  unfold direct, call. fold out.
  destruct out as [results|msg|class msg]; [|reflexivity|reflexivity].
  destruct results as [|r rs]; [reflexivity|].
  unfold render, lift, is_empty, pbind.
  destruct (for_each_from fmt 1 (r :: rs)); reflexivity.
Qed.

(** The handlers' own exceptions are instances of [Exception]. *)
Lemma text_search_request_exception (arguments : gmap string pyval) (e : exn) :
  text_search_request arguments = Raise e -> is_exception e = true.
Proof.
  unfold text_search_request, getitem. intros H.
  destruct (arguments !! "query") as [query|]; cbn [pbind] in H;
    [|injection H as <-; reflexivity].
  destruct (truthy (get arguments "backend" (PStr "auto"))).
  - destruct (get arguments "backend" (PStr "auto")) as [| |n|s];
      cbn [strip strip_chars pbind] in H; try discriminate H;
      injection H as <-; reflexivity.
  - discriminate H.
Qed.




Lemma handle_text_search_raise (arguments : gmap string pyval) (e : exn) (w : World) :
  text_search_request arguments = Raise e ->
  handle_text_search provider arguments w =
    (Ok [text_content (cat ["Search error: "; str_exn e; nl;
                            "Please try again with different parameters."])], w).
Proof.
  intros H. unfold handle_text_search, try_except, bind, lift. rewrite H.
  rewrite (text_search_request_exception arguments e H). reflexivity.
Qed.

Lemma handle_text_search_run (arguments : gmap string pyval)
    (r : TextSearchRequest) (w : World) :
  text_search_request arguments = Ok r ->
  let out := provider (length (trace (with_text_client r w))) (text_client r w)
               text_ (text_kwargs r) in
  handle_text_search provider arguments w =
    (text_response out,
     log_event (EvCall WorkerThread (text_client r w) text_ (text_kwargs r) out)
       (with_text_client r w)).
Proof.
  intros H out.
  unfold handle_text_search, try_except, bind, lift. rewrite H.
  unfold DDGS_new, attempt, to_thread, call.
  fold (text_client r w). fold (with_text_client r w). fold out.
  destruct out as [results|msg|class msg]; [|reflexivity|reflexivity].
  destruct results as [|x xs]; [reflexivity|].
  unfold text_response, is_empty, ret.
  destruct (for_each_from format_text_result 1 (x :: xs)) as [formatted|e];
    [reflexivity|].
  destruct (is_exception e); reflexivity.
Qed.

End Runs.

Section Dispatch.

Variable provider : Provider.

Lemma method_of_tool_name (tool : string) (m : Method) :
  method_of_tool tool = Some m -> tool = tool_name m.
Proof.
  unfold method_of_tool.
  repeat match goal with
  | |- context [String.eqb tool ?s] =>
      destruct (String.eqb_spec tool s) as [->|?]
  end; intros H; inversion H; reflexivity.
Qed.

Lemma method_of_tool_None (tool : string) :
  method_of_tool tool = None <-> tool ∉ tool_names.
Proof.
  unfold method_of_tool, tool_names. simpl.
  repeat match goal with
  | |- context [String.eqb tool ?s] =>
      destruct (String.eqb_spec tool s) as [->|?]
  end; split; intros H; try discriminate; try reflexivity;
    try (exfalso; apply H; apply list_elem_of_In; simpl; tauto).
  intros Hin. apply list_elem_of_In in Hin. simpl in Hin. intuition congruence.
Qed.

(** What [handle_text_search] lets out is not an instance of [Exception]. *)
Lemma text_response_raise (out : Outcome) (e : exn) :
  text_response out = Raise e -> is_exception e = false.
Proof.
  destruct out as [results|msg|class msg]; simpl; intros H;
    [|discriminate H|injection H as <-; reflexivity].
  destruct results as [|x xs]; [discriminate H|]. unfold is_empty in H.
  destruct (for_each_from format_text_result 1 (x :: xs)) as [formatted|e'];
    [discriminate H|].
  destruct (is_exception e') eqn:E; [discriminate H|].
  injection H as <-. exact E.
Qed.

Lemma handle_call_tool_text (arguments : gmap string pyval) (w : World) :
  handle_call_tool provider "ddgs_text_search" arguments w =
  handle_text_search provider arguments w.
Proof.
  unfold handle_call_tool, try_except. simpl.
  destruct (text_search_request arguments) as [r|e] eqn:H.
  - rewrite (handle_text_search_run provider arguments r w H). cbv zeta.
    destruct (text_response _) as [a|e] eqn:E; [reflexivity|].
    rewrite (text_response_raise _ e E). reflexivity.
  - rewrite (handle_text_search_raise provider arguments e w H). reflexivity.
Qed.

Lemma handle_call_tool_plain (m : Method) (arguments : gmap string pyval) (w : World) :
  m <> text_ ->
  handle_call_tool provider (tool_name m) arguments w =
  match arguments !! "query" with
  | None => (recover (Raise (KeyError "query")), w)
  | Some query =>
      let kwargs := plain_kwargs m query arguments in
      let out := provider (length (trace (with_shared_client w)))
                   (shared_client w) m kwargs in
      (recover (render m (what m) (format_result m) out),
       log_event (EvCall EventLoop (shared_client w) m kwargs out)
         (with_shared_client w))
  end.
Proof.
  intros Hm.
  assert (E : handle_call_tool provider (tool_name m) arguments =
              try_except
                (let* query := lift (getitem arguments "query") in
                 search_shared provider m (plain_kwargs m query arguments)
                   (what m) (format_result m))
                (fun e => ret [text_content (cat ["Error executing search: "; str_exn e])])).
  { destruct m; try congruence; reflexivity. }
  rewrite E. unfold try_except, bind at 1, lift, getitem.
  destruct (arguments !! "query") as [query|]; [|reflexivity].
  rewrite search_shared_run. cbv zeta.
  match goal with
  | |- context [render ?m ?wh ?f ?o] =>
      destruct (render m wh f o) as [response|e]; [reflexivity|]
  end.
  unfold recover, ret. destruct (is_exception e); reflexivity.
Qed.

Lemma handle_call_tool_unknown (tool : string) (arguments : gmap string pyval)
    (w : World) :
  tool ∉ tool_names ->
  handle_call_tool provider tool arguments w =
    (Ok [text_content (cat ["Error executing search: Unknown tool: "; tool])], w).
Proof.
  intros H. apply method_of_tool_None in H. revert H.
  unfold method_of_tool, handle_call_tool, try_except.
  repeat match goal with
  | |- context [String.eqb tool ?s] => destruct (String.eqb tool s)
  end; intros H; try discriminate H.
  reflexivity.
Qed.

End Dispatch.

(** ** The events an invocation adds *)

Lemma new_events_same (w : World) : new_events w w = [].
Proof. unfold new_events. apply drop_all. Qed.

Lemma new_events_text (r : TextSearchRequest) (ev : Event) (w : World) :
  new_events w (log_event ev (with_text_client r w)) = [EvNew (text_client r w); ev].
Proof.
  unfold new_events, log_event, with_text_client. simpl.
  rewrite <- app_assoc. apply drop_app_length.
Qed.

Lemma new_events_shared (ev : Event) (w : World) :
  new_events w (log_event ev (with_shared_client w)) =
  match ddgs_instance w with
  | Some _ => [ev]
  | None => [EvNew (shared_client w); ev]
  end.
Proof.
  unfold new_events, log_event, with_shared_client.
  destruct (ddgs_instance w); simpl.
  - apply drop_app_length.
  - rewrite <- app_assoc. apply drop_app_length.
Qed.

Section Invocations.

Variable provider : Provider.

(** An invocation of the text tool whose arguments clean adds one client
    and one provider call, made on a worker thread. *)
Lemma text_invocation_events (arguments : gmap string pyval)
    (r : TextSearchRequest) (w : World) :
  text_search_request arguments = Ok r ->
  exists out,
    handle_call_tool provider "ddgs_text_search" arguments w =
      (text_response out,
       log_event (EvCall WorkerThread (text_client r w) text_ (text_kwargs r) out)
         (with_text_client r w))
    /\ new_events w (snd (handle_call_tool provider "ddgs_text_search" arguments w)) =
       [EvNew (text_client r w);
        EvCall WorkerThread (text_client r w) text_ (text_kwargs r) out].
Proof.
  intros H. rewrite handle_call_tool_text.
  rewrite (handle_text_search_run provider arguments r w H). cbv zeta.
  eexists. split; [reflexivity|]. simpl. apply new_events_text.
Qed.

Lemma text_invocation_raise (arguments : gmap string pyval) (e : exn) (w : World) :
  text_search_request arguments = Raise e ->
  snd (handle_call_tool provider "ddgs_text_search" arguments w) = w.
Proof.
  intros H. rewrite handle_call_tool_text.
  rewrite (handle_text_search_raise provider arguments e w H). reflexivity.
Qed.

(** An invocation of another tool that names a query adds one provider
    call, made on the event loop with the shared client. *)
Lemma plain_invocation_events (m : Method) (arguments : gmap string pyval)
    (query : pyval) (w : World) :
  m <> text_ ->
  arguments !! "query" = Some query ->
  exists out,
    let ev := EvCall EventLoop (shared_client w) m
                (plain_kwargs m query arguments) out in
    handle_call_tool provider (tool_name m) arguments w =
      (recover (render m (what m) (format_result m) out),
       log_event ev (with_shared_client w))
    /\ new_events w (snd (handle_call_tool provider (tool_name m) arguments w)) =
       match ddgs_instance w with
       | Some _ => [ev]
       | None => [EvNew (shared_client w); ev]
       end.
Proof.
  intros Hm Hq. rewrite (handle_call_tool_plain provider m arguments w Hm), Hq.
  cbv zeta. eexists. split; [reflexivity|]. simpl snd.
  apply new_events_shared.
Qed.

Lemma plain_invocation_no_query (m : Method) (arguments : gmap string pyval)
    (w : World) :
  m <> text_ ->
  arguments !! "query" = None ->
  handle_call_tool provider (tool_name m) arguments w =
    (recover (Raise (KeyError "query")), w).
Proof.
  intros Hm Hq. rewrite (handle_call_tool_plain provider m arguments w Hm), Hq.
  reflexivity.
Qed.

End Invocations.

(** ** Unknown tools *)

(** C7. An invocation whose tool name is not one of the five registered
    names is answered with the single text payload
    "Error executing search: Unknown tool: <name>"; the process state is
    left as it was (no client is built, no provider operation is run) and
    the arguments are not looked at. *)
Theorem unknown_tool_response (provider : Provider) (tool : string)
    (arguments : gmap string pyval) (w : World) :
  tool ∉ tool_names ->
  handle_call_tool provider tool arguments w =
    (Ok [text_content (cat ["Error executing search: Unknown tool: "; tool])], w).
Proof. apply handle_call_tool_unknown. Qed.

Lemma unknown_tool_response_witness :
  ("ddgs_web_search" ∉ tool_names)
  /\ handle_call_tool one_result_provider "ddgs_web_search" rust_query initial_world =
       (Ok [text_content "Error executing search: Unknown tool: ddgs_web_search"],
        initial_world).
Proof.
  assert (H : "ddgs_web_search" ∉ tool_names).
  { apply method_of_tool_None. reflexivity. }
  split; [exact H|].
  exact (unknown_tool_response one_result_provider "ddgs_web_search" rust_query
           initial_world H).
Defined.

(** ** Empty result sequences *)




(** ** The result cap *)

Lemma text_search_request_ok (arguments : gmap string pyval) (query : pyval) :
  arguments !! "query" = Some query ->
  backend_cleanable arguments ->
  exists r,
    text_search_request arguments = Ok r
    /\ ts_query r = query
    /\ ts_max_results r = get arguments "max_results" (PInt 10).
Proof.
  intros Hq Hb.
  set (b := get arguments "backend" (PStr "auto")).
  assert (Hb' : truthy b = true -> is_str b).
  { unfold b, get. destruct (arguments !! "backend") as [v|] eqn:Hv; simpl.
    - apply Hb. exact Hv.
    - intros _. eexists. reflexivity. }
  unfold text_search_request, getitem. rewrite Hq. simpl pbind. fold b.
  destruct (truthy b) eqn:Ht.
  - destruct (Hb' eq_refl) as [s Hs]. rewrite Hs. simpl.
    eexists. split; [reflexivity|]. split; reflexivity.
  - simpl. eexists. split; [reflexivity|]. split; reflexivity.
Qed.

Lemma kwarg_max_results_plain (m : Method) (query : pyval)
    (arguments : gmap string pyval) :
  m <> text_ ->
  kwarg "max_results" (plain_kwargs m query arguments) =
    Some (get arguments "max_results" (PInt 10)).
Proof. intros Hm. destruct m; try congruence; reflexivity. Qed.

(** Every tool declares the bounds 1 and 100 and the default 10 for
    [max_results] in its input schema. *)
Lemma max_results_schema (t : Tool) :
  t ∈ handle_list_tools ->
  exists p,
    assoc "max_results" (properties t) = Some p
    /\ p_default p = Some (PInt 10) /\ p_minimum p = Some 1 /\ p_maximum p = Some 100.
Proof.
  intros H. apply list_elem_of_In in H. simpl in H.
  repeat destruct H as [<-|H]; try contradiction;
    (eexists; split; [reflexivity|]; repeat split).
Qed.

(** The handlers on their own.  [handle_call_tool], called on a registered
    tool with arguments that name a query (for text search: with a backend
    that cleans), makes exactly one provider call, and that call carries
    the supplied [max_results] unchanged, whatever its value, and 10 when
    none is supplied.  The handlers make no range check of their own. *)
Theorem max_results_passed_unchanged (provider : Provider) (tool : string)
    (m : Method) (arguments : gmap string pyval) (w : World) :
  method_of_tool tool = Some m ->
  is_Some (arguments !! "query") ->
  (m = text_ -> backend_cleanable arguments) ->
  exists kwargs,
    omap call_kwargs (new_events w (snd (handle_call_tool provider tool arguments w)))
      = [kwargs]
    /\ kwarg "max_results" kwargs = Some (get arguments "max_results" (PInt 10)).
Proof.
  intros Hm [query Hq] Hb.
  apply method_of_tool_name in Hm. subst tool.
  destruct (decide (m = text_)) as [->|Hne].
  - destruct (text_search_request_ok arguments query Hq (Hb eq_refl))
      as (r & Hr & _ & Hmax).
    destruct (text_invocation_events provider arguments r w Hr) as (out & _ & Hev).
    simpl tool_name. rewrite Hev. exists (text_kwargs r).
    split; [reflexivity|]. rewrite <- Hmax. reflexivity.
  - destruct (plain_invocation_events provider m arguments query w Hne Hq)
      as (out & _ & Hev).
    rewrite Hev. exists (plain_kwargs m query arguments).
    split; [destruct (ddgs_instance w); reflexivity|].
    apply kwarg_max_results_plain, Hne.
Qed.

Lemma max_results_passed_unchanged_witness :
  exists kwargs,
    omap call_kwargs
      (new_events initial_world
         (snd (handle_call_tool one_result_provider "ddgs_image_search"
                 rust_query_500 initial_world))) = [kwargs]
    /\ kwarg "max_results" kwargs = Some (PInt 500).
Proof.
  refine (max_results_passed_unchanged one_result_provider "ddgs_image_search"
            images rust_query_500 initial_world eq_refl _ _).
  - exists (PStr "rust programming"). vm_compute. reflexivity.
  - intros H. discriminate H.
Defined.

(** [handle_call_tool] alone does not reject an out-of-range value: called
    directly with 500 on a text search, it calls the provider with 500.
    The rejection is the work of the validation in front of it. *)
Lemma max_results_not_validated : ~ max_results_validated.
Proof.
  intros H.
  assert (Hin : "ddgs_text_search" ∈ tool_names).
  { apply list_elem_of_In. simpl. tauto. }
  assert (Hl : rust_query_500 !! "max_results" = Some (PInt 500)).
  { vm_compute. reflexivity. }
  specialize (H one_result_provider "ddgs_text_search" rust_query_500
                initial_world 500 Hin Hl).
  cbv zeta in H. change ((1 <=? 500)%Z && (500 <=? 100)%Z) with false in H.
  destruct H as [H _]. vm_compute in H. discriminate H.
Qed.

(** ** The result cap, with the validation in front *)

Lemma find_listed_tool (t : Tool) :
  t ∈ handle_list_tools ->
  find (fun t' => String.eqb (name t') (name t)) handle_list_tools = Some t.
Proof.
  intros H. apply list_elem_of_In in H. simpl in H.
  destruct H as [<-|[<-|[<-|[<-|[<-|[]]]]]]; reflexivity.
Qed.

Lemma listed_tool_method (t : Tool) :
  t ∈ handle_list_tools ->
  required t = ["query"]
  /\ In ("max_results", max_results_property) (properties t)
  /\ exists m, method_of_tool (name t) = Some m
               /\ (m = text_ -> In ("backend", string_default "auto") (properties t)).
Proof.
  intros H. apply list_elem_of_In in H. simpl in H.
  destruct H as [<-|[<-|[<-|[<-|[<-|[]]]]]];
    (split; [reflexivity|]; split; [simpl; tauto|]);
    [exists text_|exists images|exists videos|exists news|exists books];
    (split; [reflexivity|]); intros E; try discriminate E.
  simpl. tauto.
Qed.

Lemma validate_supplied (t : Tool) (arguments : gmap string pyval)
    (key : string) (p : Property) (v : pyval) (e : ValidationError) :
  In (key, p) (properties t) ->
  arguments !! key = Some v ->
  In e (check_property key p v) ->
  e ∈ validate t arguments.
Proof.
  intros Hp Hv He. apply list_elem_of_In. unfold validate.
  apply in_or_app. right. apply in_flat_map. exists (key, p).
  split; [exact Hp|]. unfold check_supplied. simpl. rewrite Hv. exact He.
Qed.

Lemma validate_nil (t : Tool) (arguments : gmap string pyval) :
  validate t arguments = [] ->
  (forall key, In key (required t) -> is_Some (arguments !! key))
  /\ (forall key p v, In (key, p) (properties t) -> arguments !! key = Some v ->
        check_property key p v = []).
Proof.
  unfold validate. intros H. apply app_eq_nil in H as [Hr Hp]. split.
  - intros key Hk.
    destruct (arguments !! key) as [v|] eqn:Hv; [eexists; reflexivity|].
    exfalso.
    assert (Hin : In (mkValidationError key MissingRequired)
                    (flat_map (check_required arguments) (required t))).
    { apply in_flat_map. exists key. split; [exact Hk|].
      unfold check_required. rewrite Hv. simpl. tauto. }
    rewrite Hr in Hin. exact Hin.
  - intros key p v Hk Hv.
    destruct (check_property key p v) as [|e rest] eqn:Hc; [reflexivity|].
    exfalso.
    assert (Hin : In e (flat_map (check_supplied arguments) (properties t))).
    { apply in_flat_map. exists (key, p). split; [exact Hk|].
      unfold check_supplied. simpl. rewrite Hv, Hc. simpl. tauto. }
    rewrite Hp in Hin. exact Hin.
Qed.

Lemma check_string_nil (key : string) (d : string) (v : pyval) :
  check_property key (string_default d) v = [] -> is_str v.
Proof.
  unfold check_property. simpl. destruct v as [| |n|s]; simpl; intros H;
    try discriminate H. eexists. reflexivity.
Qed.

Lemma check_max_results (n : Z) :
  ((1 <=? n)%Z && (n <=? 100)%Z = false) ->
  exists c,
    In (mkValidationError "max_results" c)
       (check_property "max_results" max_results_property (PInt n))
    /\ (c = BelowMinimum 1 \/ c = AboveMaximum 100).
Proof.
  intros H. unfold check_property. simpl.
  destruct (Z.ltb_spec n 1) as [Hlo|Hlo].
  - exists (BelowMinimum 1). split; [simpl; tauto|tauto].
  - destruct (Z.ltb_spec 100 n) as [Hhi|Hhi].
    + exists (AboveMaximum 100). split; [simpl; tauto|tauto].
    + exfalso. apply andb_false_iff in H as [H|H]; apply Z.leb_gt in H; lia.
Qed.

(** C1. For every tool the registry lists and every invocation through
    the pipeline that validates the arguments before it calls
    [handle_call_tool]: an integer [max_results] outside [1,100] is
    answered with validation errors, one of which names the parameter
    max_results and the bound it violates (the minimum 1 or the maximum
    100 of the input schema), and neither a client is built nor the
    provider called; an integer inside [1,100] is what every provider
    call of the invocation carries as [max_results], and when the
    arguments pass the validation there is exactly one such call. *)
Theorem max_results_validated_then_passed (provider : Provider) (t : Tool)
    (arguments : gmap string pyval) (w : World) (n : Z) :
  t ∈ handle_list_tools ->
  arguments !! "max_results" = Some (PInt n) ->
  let reply := fst (call_tool provider (name t) arguments w) in
  let w' := snd (call_tool provider (name t) arguments w) in
  if (1 <=? n)%Z && (n <=? 100)%Z then
    (forall kwargs, kwargs ∈ omap call_kwargs (new_events w w') ->
                    kwarg "max_results" kwargs = Some (PInt n))
    /\ (validate t arguments = [] ->
        exists kwargs, omap call_kwargs (new_events w w') = [kwargs])
  else
    w' = w
    /\ exists errors c,
         reply = Rejected errors
         /\ mkValidationError "max_results" c ∈ errors
         /\ (c = BelowMinimum 1 \/ c = AboveMaximum 100).
Proof.
  intros Ht Hn reply w'. subst reply w'. unfold call_tool.
  rewrite (find_listed_tool t Ht).
  destruct (listed_tool_method t Ht) as (Hreq & Hmax & m & Hm & Hback).
  destruct ((1 <=? n)%Z && (n <=? 100)%Z) eqn:Hrange.
  - destruct (validate t arguments) as [|e errors] eqn:Hv.
    + destruct (validate_nil t arguments Hv) as [Hq Hc].
      assert (Hquery : is_Some (arguments !! "query")).
      { apply Hq. rewrite Hreq. simpl. tauto. }
      assert (Hclean : m = text_ -> backend_cleanable arguments).
      { intros Hmt v Hb _. apply (check_string_nil "backend" "auto").
        apply (Hc "backend" _ v (Hback Hmt) Hb). }
      destruct (max_results_passed_unchanged provider (name t) m arguments w
                  Hm Hquery Hclean) as (kwargs & Hk & Hval).
      cbn [fst snd]. rewrite Hk. unfold get in Hval. rewrite Hn in Hval.
      split.
      * intros kwargs' Hin. apply list_elem_of_singleton in Hin. subst kwargs'.
        exact Hval.
      * intros _. exists kwargs. reflexivity.
    + cbn [fst snd]. rewrite new_events_same. split.
      * intros kwargs Hin. inversion Hin.
      * intros E. discriminate E.
  - destruct (check_max_results n Hrange) as (c & Hin & Hc).
    pose proof (validate_supplied t arguments "max_results" max_results_property
                  (PInt n) _ Hmax Hn Hin) as Hval.
    destruct (validate t arguments) as [|e errors] eqn:Hv; [inversion Hval|].
    cbn [fst snd]. split; [reflexivity|].
    exists (e :: errors), c. split; [reflexivity|]. split; [exact Hval|exact Hc].
Qed.

Lemma max_results_validated_then_passed_witness :
  (snd (call_tool one_result_provider "ddgs_text_search" rust_query_500 initial_world)
   = initial_world
   /\ exists errors c,
        fst (call_tool one_result_provider "ddgs_text_search" rust_query_500
               initial_world) = Rejected errors
        /\ mkValidationError "max_results" c ∈ errors
        /\ (c = BelowMinimum 1 \/ c = AboveMaximum 100))
  /\ exists kwargs,
       omap call_kwargs
         (new_events initial_world
            (snd (call_tool one_result_provider "ddgs_text_search" rust_query_2
                    initial_world))) = [kwargs]
       /\ kwarg "max_results" kwargs = Some (PInt 2).
Proof.
  assert (Ht : mkTool "ddgs_text_search"
                 [("query", string_property);
                  ("region", string_default "us-en");
                  ("safesearch", safesearch_property);
                  ("timelimit", enum_property ["d"; "w"; "m"; "y"]);
                  ("max_results", max_results_property);
                  ("backend", string_default "auto");
                  ("proxy", string_property)]
                 ["query"] ∈ handle_list_tools).
  { apply list_elem_of_In. simpl. tauto. }
  split.
  - refine (max_results_validated_then_passed one_result_provider _ rust_query_500
              initial_world 500 Ht _).
    vm_compute. reflexivity.
  - pose proof (max_results_validated_then_passed one_result_provider _ rust_query_2
                  initial_world 2 Ht) as H.
    cbn [name] in H. cbv zeta in H.
    assert (Hn : rust_query_2 !! "max_results" = Some (PInt 2)).
    { vm_compute. reflexivity. }
    specialize (H Hn). change ((1 <=? 2)%Z && (2 <=? 100)%Z) with true in H.
    cbv iota in H. destruct H as [Hall Hone].
    destruct Hone as [kwargs Hk]; [vm_compute; reflexivity|].
    exists kwargs. split; [exact Hk|].
    apply Hall. rewrite Hk. apply list_elem_of_singleton. reflexivity.
Defined.

(** ** The backend selector *)

(** Text search replaces a backend that is absent, empty or [auto] by
    [duckduckgo] before the provider is called. *)
Lemma text_backend_auto_resolved (arguments : gmap string pyval)
    (r : TextSearchRequest) :
  text_search_request arguments = Ok r ->
  get arguments "backend" (PStr "auto") = PStr "auto" ->
  ts_backend r = PStr "duckduckgo"
  /\ kwarg "backend" (text_kwargs r) = Some (PStr "duckduckgo").
Proof.
  unfold text_search_request. intros H Hb. rewrite Hb in H.
  destruct (getitem arguments "query") as [query|e]; simpl in H; [|discriminate H].
  injection H as <-. split; reflexivity.
Qed.

(** News search hands the backend argument to the provider as it is. *)
Lemma news_backend_forwarded (provider : Provider)
    (arguments : gmap string pyval) (query : pyval) (w : World) :
  arguments !! "query" = Some query ->
  exists kwargs,
    omap call_kwargs
      (new_events w (snd (handle_call_tool provider "ddgs_news_search" arguments w)))
      = [kwargs]
    /\ kwarg "backend" kwargs = Some (get arguments "backend" (PStr "auto")).
Proof.
  intros Hq.
  destruct (plain_invocation_events provider news arguments query w
              ltac:(discriminate) Hq) as (out & _ & Hev).
  simpl tool_name in Hev. rewrite Hev.
  exists (plain_kwargs news query arguments).
  split; [destruct (ddgs_instance w); reflexivity|reflexivity].
Qed.

(** C3 at the news tool.  A news search with [backend = "auto"] calls the
    provider with the backend [auto] itself: no concrete backend is chosen
    before the call, where text search chooses [duckduckgo]. *)
Theorem news_backend_auto_unresolved (provider : Provider) (w : World) :
  exists kwargs,
    omap call_kwargs
      (new_events w
         (snd (handle_call_tool provider "ddgs_news_search" rust_query_auto w)))
      = [kwargs]
    /\ kwarg "backend" kwargs = Some (PStr "auto").
Proof.
  assert (Hq : rust_query_auto !! "query" = Some (PStr "rust programming")).
  { vm_compute. reflexivity. }
  destruct (news_backend_forwarded provider rust_query_auto _ w Hq)
    as (kwargs & Hk & Hb).
  exists kwargs. split; [exact Hk|]. rewrite Hb. vm_compute. reflexivity.
Qed.

(** ** Where the provider call runs *)

Lemma text_search_on_worker (provider : Provider)
    (arguments : gmap string pyval) (r : TextSearchRequest) (w : World) :
  text_search_request arguments = Ok r ->
  omap call_context
    (new_events w (snd (handle_call_tool provider "ddgs_text_search" arguments w)))
  = [WorkerThread].
Proof.
  intros Hr.
  destruct (text_invocation_events provider arguments r w Hr) as (out & _ & Hev).
  rewrite Hev. reflexivity.
Qed.

Lemma plain_search_on_event_loop (provider : Provider) (m : Method)
    (arguments : gmap string pyval) (query : pyval) (w : World) :
  m <> text_ ->
  arguments !! "query" = Some query ->
  omap call_context
    (new_events w (snd (handle_call_tool provider (tool_name m) arguments w)))
  = [EventLoop].
Proof.
  intros Hm Hq.
  destruct (plain_invocation_events provider m arguments query w Hm Hq)
    as (out & _ & Hev).
  rewrite Hev. destruct (ddgs_instance w); reflexivity.
Qed.

(** C9 at the image tool.  The provider call of an image search is made on
    the event loop itself, not on a worker thread; only text search goes
    through [asyncio.to_thread]. *)
Theorem image_search_on_event_loop (provider : Provider) (w : World) :
  omap call_context
    (new_events w (snd (handle_call_tool provider "ddgs_image_search" rust_query w)))
  = [EventLoop].
Proof.
  apply (plain_search_on_event_loop provider images rust_query
           (PStr "rust programming") w); [discriminate|].
  vm_compute. reflexivity.
Qed.

(** ** The URL of a text result *)

Lemma py_eq_str (s t : string) : py_eq (PStr s) (PStr t) = bool_decide (s = t).
Proof.
  unfold py_eq. simpl. apply bool_decide_ext. split; congruence.
Qed.

Lemma startswith_str (s : string) (p q : string) :
  startswith (PStr s) [p; q] = Ok (String.prefix p s || String.prefix q s).
Proof. simpl. rewrite orb_false_r. reflexivity. Qed.

Lemma text_result_url_rewritten (result : gmap string pyval) (u : string) :
  result !! "href" = Some (PStr u) ->
  u <> EmptyString -> u <> "N/A" ->
  text_result_url result = Ok (PStr (rewritten_url u)).
Proof.
  intros H Hne Hna. unfold text_result_url, get. rewrite H. simpl default.
  rewrite py_eq_str, (bool_decide_eq_false_2 _ Hna).
  destruct u as [|c u']; [contradiction|]. cbn [truthy andb negb].
  rewrite startswith_str. unfold rewritten_url. cbn [pbind].
  destruct (String.prefix "http://" (String c u') || String.prefix "https://" (String c u'));
    cbn [negb]; [reflexivity|].
  cbn [startswith existsb pbind]. rewrite orb_false_r.
  destruct (String.prefix "//" (String c u')); reflexivity.
Qed.

(** C5, with the guard the code has.  A text result whose URL is not empty
    and is not the placeholder "N/A" is rendered with its URL unchanged
    when it starts with "http://" or "https://", with "https:" put before
    it when it starts with "//", and with "https://" put before it
    otherwise. *)
Theorem text_url_rewritten (i : nat) (result : gmap string pyval) (u : string) :
  result !! "href" = Some (PStr u) ->
  u <> EmptyString -> u <> "N/A" ->
  text_result_url result = Ok (PStr (rewritten_url u))
  /\ format_text_result i result =
     Ok (cat [str_nat i; ". "; str (get result "title" (PStr "No title")); nl;
              "   URL: "; rewritten_url u; nl;
              "   "; str (get result "body" (PStr "No description")); nl]).
Proof.
  intros H Hne Hna.
  pose proof (text_result_url_rewritten result u H Hne Hna) as Hu.
  split; [exact Hu|]. unfold format_text_result. rewrite Hu. reflexivity.
Qed.

Lemma text_url_rewritten_witness :
  text_result_url {[ "href" := PStr "example.com/x" ]} =
    Ok (PStr "https://example.com/x")
  /\ text_result_url {[ "href" := PStr "//example.com/x" ]} =
    Ok (PStr "https://example.com/x")
  /\ text_result_url {[ "href" := PStr "https://example.com/x" ]} =
    Ok (PStr "https://example.com/x").
Proof.
  split; [|split].
  - refine (proj1 (text_url_rewritten 1 {[ "href" := PStr "example.com/x" ]}
                     "example.com/x" _ _ _));
      [vm_compute; reflexivity | discriminate | discriminate].
  - refine (proj1 (text_url_rewritten 1 {[ "href" := PStr "//example.com/x" ]}
                     "//example.com/x" _ _ _));
      [vm_compute; reflexivity | discriminate | discriminate].
  - refine (proj1 (text_url_rewritten 1 {[ "href" := PStr "https://example.com/x" ]}
                     "https://example.com/x" _ _ _));
      [vm_compute; reflexivity | discriminate | discriminate].
Defined.

(** C5, as the specification states it, fails: the URL "N/A" has no scheme
    and is rendered as it is. *)
Lemma placeholder_url_not_prefixed : ~ every_url_rewritten.
Proof.
  intros H.
  specialize (H {[ "href" := PStr "N/A" ]} "N/A").
  assert (Hl : ({[ "href" := PStr "N/A" ]} : gmap string pyval) !! "href"
               = Some (PStr "N/A")) by (vm_compute; reflexivity).
  specialize (H Hl). vm_compute in H. discriminate H.
Qed.

(** C10. The rewrite is skipped for the placeholder and for the empty
    URL: a text result without 'href' is rendered with the line
    "   URL: N/A", and so is one whose 'href' is "N/A"; one whose 'href' is
    the empty string is rendered with the line "   URL: ". *)
Theorem text_url_guard (i : nat) (result : gmap string pyval) :
  (result !! "href" = None \/ result !! "href" = Some (PStr "N/A") ->
   text_result_url result = Ok (PStr "N/A")
   /\ format_text_result i result =
      Ok (cat [str_nat i; ". "; str (get result "title" (PStr "No title")); nl;
               "   URL: N/A"; nl;
               "   "; str (get result "body" (PStr "No description")); nl]))
  /\ (result !! "href" = Some (PStr EmptyString) ->
      text_result_url result = Ok (PStr EmptyString)
      /\ format_text_result i result =
         Ok (cat [str_nat i; ". "; str (get result "title" (PStr "No title")); nl;
                  "   URL: "; nl;
                  "   "; str (get result "body" (PStr "No description")); nl])).
Proof.
  split.
  - intros H.
    assert (Hu : text_result_url result = Ok (PStr "N/A")).
    { unfold text_result_url, get. destruct H as [-> | ->]; reflexivity. }
    split; [exact Hu|]. unfold format_text_result. rewrite Hu. reflexivity.
  - intros H.
    assert (Hu : text_result_url result = Ok (PStr EmptyString)).
    { unfold text_result_url, get. rewrite H. reflexivity. }
    split; [exact Hu|]. unfold format_text_result. rewrite Hu. reflexivity.
Qed.

Lemma text_url_guard_witness :
  format_text_result 1 {[ "title" := PStr "Rust" ]} =
    Ok (cat ["1. Rust"; nl; "   URL: N/A"; nl; "   No description"; nl])
  /\ format_text_result 2 {[ "href" := PStr EmptyString ]} =
    Ok (cat ["2. No title"; nl; "   URL: "; nl; "   No description"; nl]).
Proof.
  split.
  - refine (proj2 (proj1 (text_url_guard 1 {[ "title" := PStr "Rust" ]}) _)).
    left. vm_compute. reflexivity.
  - refine (proj2 (proj2 (text_url_guard 2 {[ "href" := PStr EmptyString ]}) _)).
    vm_compute. reflexivity.
Defined.

(** ** Rendering never fails on string fields *)

Lemma get_union_placeholder (r p : gmap string pyval) (k : string) (d : pyval) :
  p !! k = Some d -> get (r ∪ p) k d = get r k d.
Proof.
  intros Hp. unfold get. rewrite lookup_union, Hp.
  destruct (r !! k); reflexivity.
Qed.

Ltac placeholder_fields :=
  repeat (rewrite get_union_placeholder by (vm_compute; reflexivity)).

Lemma format_result_placeholders (m : Method) (i : nat)
    (result : gmap string pyval) :
  format_result m i (result ∪ placeholders m) = format_result m i result.
Proof.
  destruct m; simpl;
    unfold format_text_result, text_result_url, format_image_result,
      format_video_result, format_news_result, format_book_result;
    placeholder_fields; reflexivity.
Qed.

Lemma text_result_url_ok (result : gmap string pyval) :
  (forall v, result !! "href" = Some v -> is_str v) ->
  exists s, text_result_url result = Ok (PStr s).
Proof.
  intros H. unfold text_result_url, get.
  destruct (result !! "href") as [v|]; simpl default.
  - destruct (H v eq_refl) as [s ->].
    destruct (truthy (PStr s) && negb (py_eq (PStr s) (PStr "N/A")));
      [|eexists; reflexivity].
    cbn [startswith pbind].
    destruct (negb _); [|eexists; reflexivity].
    eexists; reflexivity.
  - eexists; reflexivity.
Qed.

Lemma format_result_ok (m : Method) (i : nat) (result : gmap string pyval) :
  string_fields m result -> exists entry, format_result m i result = Ok entry.
Proof.
  destruct m; simpl; intros H; try (eexists; reflexivity).
  - unfold format_text_result.
    destruct (text_result_url_ok result H) as [s ->]. eexists; reflexivity.
  - unfold format_video_result, get.
    destruct (result !! "description") as [v|] eqn:Hv; simpl default.
    + destruct (H v eq_refl) as [s ->]. eexists; reflexivity.
    + eexists; reflexivity.
Qed.

Lemma for_each_from_ok (m : Method) (results : list (gmap string pyval)) :
  Forall (string_fields m) results ->
  forall i, exists formatted,
    for_each_from (format_result m) i results = Ok formatted
    /\ length formatted = length results.
Proof.
  induction 1 as [|result results Hr _ IH]; intros i.
  - exists []. split; reflexivity.
  - destruct (format_result_ok m i result Hr) as [entry He].
    destruct (IH (S i)) as (rest & Hrest & Hlen).
    exists (entry :: rest). simpl. rewrite He. simpl. rewrite Hrest. simpl.
    split; [reflexivity|]. rewrite Hlen. reflexivity.
Qed.

Lemma text_result_url_renderable (result : gmap string pyval) :
  (forall v, result !! "href" = Some v -> is_str v \/ truthy v = false) ->
  exists url, text_result_url result = Ok url.
Proof.
  intros H. unfold text_result_url, get.
  destruct (result !! "href") as [v|]; simpl default.
  - destruct (H v eq_refl) as [[s ->]| Hf].
    + destruct (text_result_url_ok {[ "href" := PStr s ]}) as [u Hu].
      { intros v Hv. rewrite lookup_singleton_eq in Hv. injection Hv as <-.
        eexists. reflexivity. }
      unfold text_result_url, get in Hu. rewrite lookup_singleton_eq in Hu.
      simpl default in Hu. eexists. exact Hu.
    + rewrite Hf. eexists. reflexivity.
  - eexists; reflexivity.
Qed.

(** The entries that render are exactly those of the renderable results. *)
Lemma format_result_renderable (m : Method) (i : nat)
    (result : gmap string pyval) :
  renderable m result <-> exists entry, format_result m i result = Ok entry.
Proof.
  split.
  - destruct m; simpl; intros H; try (eexists; reflexivity).
    + unfold format_text_result.
      destruct (text_result_url_renderable result H) as [url ->].
      eexists; reflexivity.
    + unfold format_video_result, get.
      destruct (result !! "description") as [v|] eqn:Hv; simpl default.
      * destruct (H v eq_refl) as [s ->]. eexists; reflexivity.
      * eexists; reflexivity.
  - destruct m; simpl; try (intros _; exact I); intros [entry He] v Hv.
    + unfold format_text_result, text_result_url, get in He. rewrite Hv in He.
      simpl default in He.
      destruct v as [|b|n|s]; [right; reflexivity| | |left; eexists; reflexivity].
      * destruct b; [discriminate He|right; reflexivity].
      * destruct (Z.eqb_spec n 0) as [->|Hn]; [right; reflexivity|].
        exfalso. unfold truthy in He.
        apply Z.eqb_neq in Hn. rewrite Hn in He.
        change (py_eq (PInt n) (PStr "N/A")) with false in He.
        discriminate He.
    + unfold format_video_result, get in He. rewrite Hv in He. simpl default in He.
      destruct v as [|b|n|s]; try discriminate He. eexists; reflexivity.
Qed.

Lemma for_each_from_renderable (m : Method) (results : list (gmap string pyval)) :
  Forall (renderable m) results ->
  forall i, exists formatted,
    for_each_from (format_result m) i results = Ok formatted
    /\ length formatted = length results.
Proof.
  induction 1 as [|result results Hr _ IH]; intros i.
  - exists []. split; reflexivity.
  - destruct (proj1 (format_result_renderable m i result) Hr) as [entry He].
    destruct (IH (S i)) as (rest & Hrest & Hlen).
    exists (entry :: rest). simpl. rewrite He. simpl. rewrite Hrest. simpl.
    split; [reflexivity|]. rewrite Hlen. reflexivity.
Qed.

(** C4, for the results the code can render.  For every kind and every
    result sequence in which the 'href' of a text result is absent, a
    string or falsy (null, 0, False) and the 'description' of a video
    result is absent or a string, whatever the other fields hold, the
    entries are rendered without an exception, one per result; and a
    field that is absent is rendered as its placeholder ("No title",
    "No description", "N/A", and "?" for the width and height of an
    image): an entry is rendered as if the absent fields held them. *)
Theorem formatting_of_renderable_results (m : Method)
    (results : list (gmap string pyval)) :
  Forall (renderable m) results ->
  (exists formatted,
      for_each_from (format_result m) 1 results = Ok formatted
      /\ length formatted = length results)
  /\ (forall i result,
        format_result m i (result ∪ placeholders m) = format_result m i result).
Proof.
  intros H. split.
  - apply for_each_from_renderable, H.
  - intros i result. apply format_result_placeholders.
Qed.

Lemma formatting_of_renderable_results_witness :
  Forall (renderable text_) [ {[ "title" := PStr "Rust"; "href" := PNone ]}; ∅ ]
  /\ for_each_from (format_result text_) 1
       [ {[ "title" := PStr "Rust"; "href" := PNone ]}; ∅ ] =
     Ok [cat ["1. Rust"; nl; "   URL: None"; nl; "   No description"; nl];
         cat ["2. No title"; nl; "   URL: N/A"; nl; "   No description"; nl]].
Proof.
  assert (H : Forall (renderable text_)
                [ {[ "title" := PStr "Rust"; "href" := PNone ]}; ∅ ]).
  { constructor; [|constructor; [|constructor]]; intros v Hv; vm_compute in Hv.
    - injection Hv as <-. right. reflexivity.
    - discriminate Hv. }
  split; [exact H|].
  destruct (proj1 (formatting_of_renderable_results text_ _ H)) as (formatted & Hf & _).
  rewrite Hf. vm_compute in Hf. injection Hf as <-. reflexivity.
Defined.

Lemma for_each_from_rendered (m : Method) (results : list (gmap string pyval)) :
  forall i formatted,
    for_each_from (format_result m) i results = Ok formatted ->
    Forall (renderable m) results.
Proof.
  induction results as [|result rest IH]; intros i formatted E; [constructor|].
  simpl in E.
  destruct (format_result m i result) as [entry|e] eqn:He; cbn [pbind] in E;
    [|discriminate E].
  destruct (for_each_from (format_result m) (S i) rest) as [tail|e] eqn:Er;
    cbn [pbind] in E; [|discriminate E].
  constructor.
  - apply (format_result_renderable m i result). exists entry. exact He.
  - apply (IH (S i) tail Er).
Qed.

(** The condition is the exact one: a result sequence with a text result
    whose 'href' is truthy and not a string, or a video result whose
    'description' is present and not a string, raises. *)
Lemma unrenderable_raises (m : Method) (results : list (gmap string pyval)) :
  ~ Forall (renderable m) results ->
  exists e, for_each_from (format_result m) 1 results = Raise e.
Proof.
  intros H.
  destruct (for_each_from (format_result m) 1 results) as [formatted|e] eqn:E;
    [|eexists; reflexivity].
  exfalso. apply H. apply (for_each_from_rendered m results 1%nat formatted E).
Qed.

(** C4, as the specification states it, fails: a video result whose
    description is null makes the entry template raise. *)
Lemma null_description_raises : ~ formatting_never_raises.
Proof.
  intros H. destruct (H videos [null_description]) as [formatted Hf].
  vm_compute in Hf. discriminate Hf.
Qed.

(** The exception ends the video handler; [handle_call_tool] reports it. *)
Lemma null_description_response :
  fst (handle_call_tool null_description_provider "ddgs_video_search"
         rust_query initial_world) =
  Ok [text_content (cat ["Error executing search: "; String squote EmptyString;
                         "NoneType"; String squote EmptyString;
                         " object is not subscriptable"])].
Proof. vm_compute. reflexivity. Qed.

(** A field that is present and null is rendered as the text "None". *)
Lemma null_title_rendered :
  format_news_result 1 {[ "title" := PNone ]} =
  Ok (cat ["1. **None**"; nl; "   Source: N/A"; nl; "   Date: N/A"; nl;
           "   URL: N/A"; nl; "   No description"; nl]).
Proof. vm_compute. reflexivity. Qed.

(** ** The client cache *)

Lemma handle_call_tool_step (provider : Provider) (tool : string)
    (arguments : gmap string pyval) (w : World) :
  cache_step w (snd (handle_call_tool provider tool arguments w)).
Proof.
  destruct (method_of_tool tool) as [m|] eqn:Hm.
  - apply method_of_tool_name in Hm. subst tool.
    destruct (decide (m = text_)) as [->|Hne].
    + simpl tool_name.
      destruct (text_search_request arguments) as [r|e] eqn:Hr.
      * destruct (text_invocation_events provider arguments r w Hr)
          as (out & Hrun & _).
        rewrite Hrun. apply step_text.
      * rewrite (text_invocation_raise provider arguments e w Hr).
        apply step_idle.
    + destruct (arguments !! "query") as [query|] eqn:Hq.
      * destruct (plain_invocation_events provider m arguments query w Hne Hq)
          as (out & Hrun & _).
        rewrite Hrun. apply step_shared, Hne.
      * rewrite (plain_invocation_no_query provider m arguments w Hne Hq).
        apply step_idle.
  - apply method_of_tool_None in Hm.
    rewrite (handle_call_tool_unknown provider tool arguments w Hm).
    apply step_idle.
Qed.

Lemma shared_call_client_not_text (ctx : Context) (c : DDGS) (m : Method)
    (kwargs : list (string * pyval)) (out : Outcome) :
  m <> text_ ->
  shared_call_client (EvCall ctx c m kwargs out) = Some c
  /\ text_call_id (EvCall ctx c m kwargs out) = None.
Proof. intros Hm. destruct m; try congruence; split; reflexivity. Qed.

Lemma cache_invariant_initial : cache_invariant initial_world.
Proof.
  split; simpl.
  - intros c H. discriminate H.
  - intros c H. inversion H.
  - constructor.
  - intros id H. inversion H.
  - intros c H. discriminate H.
Qed.

Lemma cache_invariant_step (w w' : World) :
  cache_invariant w -> cache_step w w' -> cache_invariant w'.
Proof.
  intros [Hc Hs Hd Ha Hp] Hstep.
  destruct Hstep as [|r out|m kwargs out Hm].
  - split; assumption.
  - (* a text search: a fresh private client *)
    split; simpl; rewrite <- ?app_assoc, ?omap_app; simpl; rewrite ?app_nil_r.
    + intros c H. destruct (Hc c H) as (? & ? & ? & ?). repeat split; auto; lia.
    + exact Hs.
    + apply NoDup_app. split; [exact Hd|]. split; [|apply NoDup_singleton].
      intros id Hid Hin. apply list_elem_of_singleton in Hin. subst id.
      apply Ha in Hid. lia.
    + intros id Hid. apply elem_of_app in Hid as [Hid|Hid].
      * apply Ha in Hid. lia.
      * apply list_elem_of_singleton in Hid. subst id. lia.
    + intros c H Hin. apply elem_of_app in Hin as [Hin|Hin].
      * exact (Hp c H Hin).
      * apply list_elem_of_singleton in Hin.
        destruct (Hc c H) as (_ & _ & _ & Hlt). lia.
  - (* a search through the shared client *)
    destruct (shared_call_client_not_text EventLoop (shared_client w) m kwargs out Hm)
      as [Esh Etx].
    unfold with_shared_client, shared_client in *.
    destruct (ddgs_instance w) as [cached|] eqn:Hcache; simpl in *.
    + split; simpl; rewrite ?Hcache, ?omap_app; simpl; rewrite ?Esh, ?Etx, ?app_nil_r.
      * exact Hc.
      * intros c Hin. apply elem_of_app in Hin as [Hin|Hin]; [auto|].
        apply list_elem_of_singleton in Hin. congruence.
      * exact Hd.
      * exact Ha.
      * exact Hp.
    + split; simpl; rewrite <- ?app_assoc, ?omap_app; simpl;
        rewrite ?Esh, ?Etx, ?app_nil_r.
      * intros c H. injection H as <-. simpl. repeat split; auto.
      * intros c Hin. apply elem_of_app in Hin as [Hin|Hin].
        -- apply Hs in Hin. discriminate Hin.
        -- apply list_elem_of_singleton in Hin. congruence.
      * exact Hd.
      * intros id Hid. apply Ha in Hid. lia.
      * intros c H Hin. injection H as <-. simpl in Hin. apply Ha in Hin. lia.
Qed.

Lemma cache_invariant_serve (provider : Provider)
    (invocations : list (string * gmap string pyval)) (w : World) :
  cache_invariant w -> cache_invariant (serve provider invocations w).
Proof.
  revert w. induction invocations as [|[tool arguments] rest IH]; intros w Hw.
  - exact Hw.
  - simpl. apply IH.
    apply (cache_invariant_step w); [exact Hw|apply handle_call_tool_step].
Qed.

(** [get_ddgs_instance] itself replaces the cached client when it is given
    a proxy; no handler calls it with one. *)
Lemma get_ddgs_instance_proxy_replaces (cached : DDGS) (n : nat) (evs : list Event) :
  snd (get_ddgs_instance (Some "socks5://127.0.0.1:9150") 10
         (mkWorld (Some cached) n evs)) =
  mkWorld (Some (mkDDGS n (Some "socks5://127.0.0.1:9150") 10 true)) (S n)
    (evs ++ [EvNew (mkDDGS n (Some "socks5://127.0.0.1:9150") 10 true)]).
Proof. reflexivity. Qed.

(** C2, as the code has it.  Over every sequence of invocations at most
    one shared client is cached: it is built without proxy (timeout 10,
    TLS verification on) and every provider call for images, videos, news
    and books, from the first to the last, is made through it, so it is
    never replaced.  Every text search, with or without a proxy, is made
    through a client of its own that no other call uses, and leaves the
    cache as it found it. *)
Theorem client_cache_policy (provider : Provider)
    (invocations : list (string * gmap string pyval)) :
  let w := serve provider invocations initial_world in
  (forall c, ddgs_instance w = Some c ->
     proxy c = None /\ timeout c = 10 /\ verify c = true)
  /\ (forall c, c ∈ omap shared_call_client (trace w) -> ddgs_instance w = Some c)
  /\ NoDup (omap text_call_id (trace w))
  /\ (forall c, c ∈ omap shared_call_client (trace w) ->
        ddgs_id c ∉ omap text_call_id (trace w))
  /\ (forall arguments w0,
        ddgs_instance (snd (handle_call_tool provider "ddgs_text_search" arguments w0))
        = ddgs_instance w0).
Proof.
  intros w.
  destruct (cache_invariant_serve provider invocations initial_world
              cache_invariant_initial) as [Hc Hs Hd Ha Hp].
  fold w in Hc, Hs, Hd, Ha, Hp.
  split; [|split; [|split; [|split]]].
  - intros c H. destruct (Hc c H) as (? & ? & ? & _). auto.
  - exact Hs.
  - exact Hd.
  - intros c Hin. apply Hp, Hs, Hin.
  - intros arguments w0.
    destruct (text_search_request arguments) as [r|e] eqn:Hr.
    + destruct (text_invocation_events provider arguments r w0 Hr) as (out & Hrun & _).
      rewrite Hrun. reflexivity.
    + rewrite (text_invocation_raise provider arguments e w0 Hr). reflexivity.
Qed.

Lemma client_cache_policy_witness :
  let w := serve one_result_provider mixed_invocations initial_world in
  ddgs_instance w = Some (mkDDGS 0 None 10 true)
  /\ omap text_call_id (trace w) = [1%nat; 2%nat]
  /\ NoDup (omap text_call_id (trace w)).
Proof.
  intros w.
  destruct (client_cache_policy one_result_provider mixed_invocations)
    as (_ & Hs & Hd & _).
  split; [|split].
  - apply Hs. vm_compute. apply list_elem_of_In. simpl. tauto.
  - vm_compute. reflexivity.
  - exact Hd.
Defined.

(** C2, as the specification states it, fails: two text searches without
    proxy are made through two different clients, and none is cached. *)
Lemma text_searches_do_not_share : ~ one_client_for_no_proxy.
Proof.
  intros H.
  specialize (H one_result_provider two_text_searches
                (mkDDGS 0 None 10 true) (mkDDGS 1 None 10 true)).
  cbv zeta in H.
  assert (H0 : mkDDGS 0 None 10 true = mkDDGS 1 None 10 true).
  { apply H; try reflexivity;
      vm_compute; apply list_elem_of_In; simpl; tauto. }
  discriminate H0.
Qed.

Lemma text_searches_leave_cache_empty :
  ddgs_instance (serve one_result_provider two_text_searches initial_world) = None.
Proof. vm_compute. reflexivity. Qed.

(** ** Stripping *)

Section Strip.

Variable p : ascii -> bool.

Lemma rstrip_with_cons (c : ascii) (s : string) :
  rstrip_with p (String c s) =
  match rstrip_with p s with
  | EmptyString => if p c then EmptyString else String c EmptyString
  | String d r => String c (String d r)
  end.
Proof. reflexivity. Qed.

Lemma lstrip_with_head (s : string) : head_kept p (lstrip_with p s).
Proof.
  induction s as [|c s IH]; simpl; [exact I|].
  destruct (p c) eqn:Hc; [exact IH|exact Hc].
Qed.

Lemma lstrip_with_kept (s : string) : head_kept p s -> lstrip_with p s = s.
Proof. destruct s as [|c s]; simpl; [reflexivity|]. intros ->. reflexivity. Qed.

Lemma rstrip_with_head (s : string) : head_kept p s -> head_kept p (rstrip_with p s).
Proof.
  destruct s as [|c s]; [intros _; exact I|].
  intros Hc. rewrite rstrip_with_cons.
  destruct (rstrip_with p s); simpl in *; [rewrite Hc|]; exact Hc.
Qed.

Lemma rstrip_with_idem (s : string) :
  rstrip_with p (rstrip_with p s) = rstrip_with p s.
Proof.
  induction s as [|c s IH]; [reflexivity|].
  rewrite rstrip_with_cons.
  destruct (rstrip_with p s) as [|d r] eqn:E.
  - destruct (p c) eqn:Hc; [reflexivity|].
    rewrite rstrip_with_cons. simpl. rewrite Hc. reflexivity.
  - rewrite rstrip_with_cons, IH. reflexivity.
Qed.

Lemma strip_with_idem (s : string) :
  strip_with p (strip_with p s) = strip_with p s.
Proof.
  unfold strip_with.
  rewrite (lstrip_with_kept (rstrip_with p (lstrip_with p s))).
  - apply rstrip_with_idem.
  - apply rstrip_with_head, lstrip_with_head.
Qed.

Lemma lstrip_with_length (s : string) :
  (String.length (lstrip_with p s) <= String.length s)%nat.
Proof.
  induction s as [|c s IH]; simpl; [lia|].
  destruct (p c); simpl; lia.
Qed.

Lemma lstrip_with_shrinks (s : string) :
  lstrip_with p s = s
  \/ (String.length (lstrip_with p s) < String.length s)%nat.
Proof.
  destruct s as [|c s]; simpl; [left; reflexivity|].
  destruct (p c); [right|left; reflexivity].
  pose proof (lstrip_with_length s). lia.
Qed.

Lemma rstrip_with_shrinks (s : string) :
  rstrip_with p s = s
  \/ (String.length (rstrip_with p s) < String.length s)%nat.
Proof.
  induction s as [|c s IH]; [left; reflexivity|].
  rewrite rstrip_with_cons.
  destruct (rstrip_with p s) as [|d r] eqn:E.
  - destruct IH as [IH|IH].
    + subst s. destruct (p c); [right; simpl; lia|left; reflexivity].
    + right. destruct (p c); simpl in *; lia.
  - destruct IH as [IH|IH].
    + left. rewrite IH. reflexivity.
    + right. simpl in *. lia.
Qed.

Lemma strip_with_shrinks (s : string) :
  strip_with p s = s
  \/ (String.length (strip_with p s) < String.length s)%nat.
Proof.
  unfold strip_with.
  destruct (lstrip_with_shrinks s) as [Hl|Hl].
  - rewrite Hl. apply rstrip_with_shrinks.
  - right. destruct (rstrip_with_shrinks (lstrip_with p s)) as [Hr|Hr].
    + rewrite Hr. exact Hl.
    + lia.
Qed.

Lemma strip_with_length (s : string) :
  (String.length (strip_with p s) <= String.length s)%nat.
Proof. destruct (strip_with_shrinks s) as [->|H]; lia. Qed.

End Strip.

(** ** Cleaning the arguments of a text search twice *)

Lemma truthy_str (s : string) : truthy (PStr s) = negb (String.eqb s EmptyString).
Proof. destruct s; reflexivity. Qed.

(** The backend the cleaning steps settle on, as a function of the raw
    string. *)
Lemma text_search_request_backend (arguments : gmap string pyval)
    (r : TextSearchRequest) :
  text_search_request arguments = Ok r ->
  exists b,
    ts_backend r = PStr b
    /\ b <> EmptyString /\ b <> "auto"
    /\ strip_with is_quote b = b.
Proof.
  unfold text_search_request. intros H.
  destruct (getitem arguments "query") as [query|e]; cbn [pbind] in H;
    [|discriminate H].
  set (raw := get arguments "backend" (PStr "auto")) in H.
  assert (Hd : strip_with is_quote "duckduckgo" = "duckduckgo") by reflexivity.
  destruct (truthy raw) eqn:Ht.
  - destruct raw as [| |n|s]; cbn [strip strip_chars pbind] in H; try discriminate H.
    injection H as <-. unfold ts_backend.
    set (b := strip_with is_quote (strip_with is_space s)).
    assert (Hq : strip_with is_quote b = b) by apply strip_with_idem.
    rewrite py_eq_str.
    destruct b as [|c b'] eqn:Eb; cbn [negb orb].
    { exists "duckduckgo". repeat split; try discriminate. }
    destruct (bool_decide_reflect (String c b' = "auto")) as [Ha|Ha].
    { exists "duckduckgo". repeat split; try discriminate. }
    exists (String c b'). repeat split; auto.
  - cbn [pbind] in H. injection H as <-. unfold ts_backend. rewrite Ht. simpl.
    exists "duckduckgo". repeat split; try discriminate.
Qed.

Lemma text_search_request_proxy (arguments : gmap string pyval)
    (r : TextSearchRequest) :
  text_search_request arguments = Ok r ->
  ts_proxy_value r = None
  \/ exists t, ts_proxy_value r = Some t
               /\ t <> EmptyString /\ strip_with is_space t = t.
Proof.
  unfold text_search_request. intros H.
  destruct (getitem arguments "query") as [query|e]; cbn [pbind] in H;
    [|discriminate H].
  destruct (if truthy (get arguments "backend" (PStr "auto")) then _ else _)
    as [b|e]; cbn [pbind] in H; [|discriminate H].
  injection H as <-. unfold ts_proxy_value.
  destruct (get arguments "proxy" PNone) as [| |n|s]; auto.
  destruct (String.eqb_spec (strip_with is_space s) EmptyString) as [E|E].
  - left. rewrite andb_false_r. reflexivity.
  - right. exists (strip_with is_space s).
    destruct s as [|c s']; [exfalso; apply E; reflexivity|].
    pose proof (strip_with_idem is_space (String c s')) as Hi.
    destruct (strip_with is_space (String c s')) as [|d t]; [contradiction|].
    split; [reflexivity|]. split; [discriminate|exact Hi].
Qed.

Lemma request_arguments_lookup (r : TextSearchRequest) :
  request_arguments r !! "query" = Some (ts_query r)
  /\ request_arguments r !! "region" = Some (ts_region r)
  /\ request_arguments r !! "safesearch" = Some (ts_safesearch r)
  /\ request_arguments r !! "timelimit" = Some (ts_timelimit r)
  /\ request_arguments r !! "max_results" = Some (ts_max_results r)
  /\ request_arguments r !! "backend" = Some (ts_backend r)
  /\ request_arguments r !! "proxy" = Some (from_option PStr PNone (ts_proxy_value r)).
Proof. repeat split; reflexivity. Qed.

Lemma text_search_request_again (arguments : gmap string pyval)
    (r : TextSearchRequest) :
  text_search_request arguments = Ok r ->
  exists b,
    ts_backend r = PStr b
    /\ text_search_request (request_arguments r) =
       Ok (mkTextSearchRequest (ts_query r) (ts_region r) (ts_safesearch r)
             (ts_timelimit r) (ts_max_results r) (backend_again b)
             (ts_proxy_value r)).
Proof.
  intros H.
  destruct (text_search_request_backend arguments r H) as (b & Hb & Hne & _ & _).
  destruct (text_search_request_proxy arguments r H) as [Hp|(t & Hp & Ht & Hs)].
  all: exists b; split; [exact Hb|].
  all: destruct (request_arguments_lookup r) as (Eq & Er & Es & Et & Em & Eb & Ep).
  all: unfold text_search_request, getitem, get.
  all: rewrite Eq, Er, Es, Et, Em, Eb, Ep, Hb, Hp; cbn [default pbind from_option id].
  all: destruct b as [|c b']; [contradiction|]; cbn [truthy strip strip_chars pbind id].
  - reflexivity.
  - rewrite Hs. destruct t as [|d t']; [contradiction|]. reflexivity.
Qed.

(** C8, as the code has it.  For every raw argument mapping of a text
    search that cleans to a request whose backend has no whitespace at
    either end (nothing [strip()] would remove), cleaning the cleaned
    request again gives the same request. *)
Theorem renormalization_fixed (arguments : gmap string pyval)
    (r : TextSearchRequest) :
  text_search_request arguments = Ok r ->
  strip (ts_backend r) = Ok (ts_backend r) ->
  text_search_request (request_arguments r) = Ok r.
Proof.
  intros H Hs.
  destruct (text_search_request_backend arguments r H) as (b & Hb & Hne & Hna & Hq).
  destruct (text_search_request_again arguments r H) as (b' & Hb' & E).
  rewrite Hb in Hb'. injection Hb' as <-.
  rewrite E. rewrite Hb in Hs. cbn [strip] in Hs. injection Hs as Hs.
  unfold backend_again. rewrite Hs, Hq, truthy_str, py_eq_str.
  apply String.eqb_neq in Hne. rewrite Hne.
  rewrite (bool_decide_eq_false_2 _ Hna). cbn [negb orb].
  destruct r; cbn in *. rewrite Hb. reflexivity.
Qed.

Lemma renormalization_fixed_witness :
  text_search_request rust_query_auto = Ok rust_request
  /\ strip (ts_backend rust_request) = Ok (ts_backend rust_request)
  /\ text_search_request (request_arguments rust_request) = Ok rust_request.
Proof.
  assert (H : text_search_request rust_query_auto = Ok rust_request).
  { vm_compute. reflexivity. }
  assert (Hs : strip (ts_backend rust_request) = Ok (ts_backend rust_request)).
  { vm_compute. reflexivity. }
  split; [exact H|]. split; [exact Hs|].
  exact (renormalization_fixed rust_query_auto rust_request H Hs).
Defined.

(** The condition is the exact one: a cleaned backend with whitespace at an
    end does not survive a second pass. *)
Lemma second_pass_needs_trimmed_backend (arguments : gmap string pyval)
    (r : TextSearchRequest) :
  text_search_request arguments = Ok r ->
  text_search_request (request_arguments r) = Ok r ->
  strip (ts_backend r) = Ok (ts_backend r).
Proof.
  intros H Hr.
  destruct (text_search_request_backend arguments r H) as (b & Hb & Hne & Hna & Hq).
  destruct (text_search_request_again arguments r H) as (b' & Hb' & E).
  rewrite Hb in Hb'. injection Hb' as <-.
  rewrite E in Hr. rewrite Hb. cbn [strip].
  injection Hr as Hr. apply (f_equal ts_backend) in Hr.
  rewrite Hb in Hr. cbn [ts_backend] in Hr. unfold backend_again in Hr.
  destruct (negb _ || _).
  - injection Hr as <-. reflexivity.
  - injection Hr as Hr.
    destruct (strip_with_shrinks is_space b) as [Hs|Hs]; [rewrite Hs; reflexivity|].
    pose proof (strip_with_length is_quote (strip_with is_space b)) as Hl.
    rewrite Hr in Hl. lia.
Qed.

(** C8, as the specification states it, fails: the backend written as
    quote, space, auto, space, quote is cleaned to auto between two spaces,
    and a second pass turns that into duckduckgo. *)
Lemma renormalization_changes_backend : ~ normalization_idempotent.
Proof.
  intros H.
  assert (H1 : text_search_request quoted_backend_arguments = Ok spaced_auto_request).
  { vm_compute. reflexivity. }
  specialize (H quoted_backend_arguments spaced_auto_request H1).
  vm_compute in H. discriminate H.
Qed.

Lemma renormalization_of_spaced_auto :
  text_search_request (request_arguments spaced_auto_request) = Ok rust_request.
Proof. vm_compute. reflexivity. Qed.

(** * Further properties of the handlers *)

(** ** Every invocation is answered by one text *)







(** ** A missing query *)

Lemma text_search_request_no_query (arguments : gmap string pyval) :
  arguments !! "query" = None ->
  text_search_request arguments = Raise (KeyError "query").
Proof.
  intros H. unfold text_search_request, getitem. rewrite H. reflexivity.
Qed.

(** X2. An invocation of a registered tool without a 'query' argument is
    answered with the text of the [KeyError] ("Search error: 'query'" and
    the retry advice for text search, "Error executing search: 'query'" for
    the other tools); no client is built, the provider is not called and
    the state stays as it was. *)
Theorem missing_query_response (provider : Provider) (tool : string)
    (m : Method) (arguments : gmap string pyval) (w : World) :
  method_of_tool tool = Some m ->
  arguments !! "query" = None ->
  handle_call_tool provider tool arguments w =
    (Ok [text_content (missing_query_text m)], w).
Proof.
  intros Hm Hq. apply method_of_tool_name in Hm. subst tool.
  destruct (decide (m = text_)) as [->|Hne].
  - simpl tool_name. rewrite handle_call_tool_text.
    apply handle_text_search_raise, text_search_request_no_query, Hq.
  - rewrite (plain_invocation_no_query provider m arguments w Hne Hq).
    destruct m; try congruence; reflexivity.
Qed.

Lemma missing_query_response_witness :
  handle_call_tool one_result_provider "ddgs_book_search" ∅ initial_world =
    (Ok [text_content (cat ["Error executing search: ";
                            String squote EmptyString; "query";
                            String squote EmptyString])],
     initial_world).
Proof.
  apply (missing_query_response one_result_provider "ddgs_book_search" books
           ∅ initial_world); reflexivity.
Defined.

(** ** A provider call that raises *)



(** ** The cached client of [get_ddgs_instance] *)

(** X4. Two calls of [get_ddgs_instance] without proxy in a row: the second
    returns the client the first returned and changes nothing, whatever
    the two timeouts are (the timeout of a call that finds a cached client
    is ignored). *)
Theorem get_ddgs_instance_twice (timeout1 timeout2 : Z) (w : World) :
  get_ddgs_instance None timeout2 (snd (get_ddgs_instance None timeout1 w)) =
  get_ddgs_instance None timeout1 w.
Proof.
  unfold get_ddgs_instance.
  destruct (ddgs_instance w) as [cached|] eqn:Hc; simpl.
  - rewrite Hc. reflexivity.
  - reflexivity.
Qed.

(** X5. [get_ddgs_instance] with a non-empty proxy always builds a new
    client with that proxy and the given timeout and caches it in place of
    the one that was there; a later call without proxy then returns this
    proxied client. *)
Theorem get_ddgs_instance_proxy_sticks (p : string) (timeout1 timeout2 : Z)
    (w : World) :
  p <> EmptyString ->
  let c := mkDDGS (next_id w) (Some p) timeout1 true in
  let w1 := snd (get_ddgs_instance (Some p) timeout1 w) in
  fst (get_ddgs_instance (Some p) timeout1 w) = Ok c
  /\ ddgs_instance w1 = Some c
  /\ trace w1 = (trace w ++ [EvNew c])%list
  /\ get_ddgs_instance None timeout2 w1 = (Ok c, w1).
Proof.
  intros Hp. destruct p as [|a p']; [contradiction|].
  unfold get_ddgs_instance.
  destruct (ddgs_instance w) as [cached|]; simpl; repeat split; reflexivity.
Qed.

Lemma get_ddgs_instance_proxy_sticks_witness :
  get_ddgs_instance None 10
    (snd (get_ddgs_instance (Some "tb") 30
            (snd (get_ddgs_instance None 10 initial_world)))) =
  (Ok (mkDDGS 1 (Some "tb") 30 true),
   snd (get_ddgs_instance (Some "tb") 30
          (snd (get_ddgs_instance None 10 initial_world)))).
Proof.
  refine (proj2 (proj2 (proj2
    (get_ddgs_instance_proxy_sticks "tb" 30 10
       (snd (get_ddgs_instance None 10 initial_world)) _)))).
  discriminate.
Defined.

(** ** The proxy and the backend of a text search *)

Lemma strip_with_empty (p : ascii -> bool) : strip_with p EmptyString = EmptyString.
Proof. reflexivity. Qed.

Lemma text_search_request_trimmed_proxy (arguments : gmap string pyval)
    (r : TextSearchRequest) :
  text_search_request arguments = Ok r ->
  ts_proxy_value r = trimmed_proxy (arguments !! "proxy").
Proof.
  unfold text_search_request. intros H.
  destruct (getitem arguments "query") as [query|e]; cbn [pbind] in H;
    [|discriminate H].
  destruct (if truthy (get arguments "backend" (PStr "auto")) then _ else _)
    as [b|e]; cbn [pbind] in H; [|discriminate H].
  injection H as <-. unfold ts_proxy_value, trimmed_proxy, get.
  destruct (arguments !! "proxy") as [[| |n|s]|]; try reflexivity.
  cbn [default from_option id].
  destruct s as [|c s']; [reflexivity|].
  destruct (strip_with is_space (String c s')); reflexivity.
Qed.

(** X6. The client of a text search whose arguments clean is a new one
    (its identity is the next free one), built with timeout 10 and TLS
    verification; its proxy is the trimmed 'proxy' argument when that is a
    string with something left after trimming, and no proxy when the
    argument is absent, not a string, empty or blank. *)
Theorem text_client_proxy (provider : Provider) (arguments : gmap string pyval)
    (w : World) :
  is_Some (arguments !! "query") ->
  backend_cleanable arguments ->
  exists kwargs out,
    new_events w (snd (handle_call_tool provider "ddgs_text_search" arguments w)) =
    [EvNew (mkDDGS (next_id w) (trimmed_proxy (arguments !! "proxy")) 10 true);
     EvCall WorkerThread
       (mkDDGS (next_id w) (trimmed_proxy (arguments !! "proxy")) 10 true)
       text_ kwargs out].
Proof.
  intros [query Hq] Hb.
  destruct (text_search_request_ok arguments query Hq Hb) as (r & Hr & _ & _).
  destruct (text_invocation_events provider arguments r w Hr) as (out & _ & Hev).
  exists (text_kwargs r), out. rewrite Hev. unfold text_client.
  rewrite (text_search_request_trimmed_proxy arguments r Hr). reflexivity.
Qed.

Lemma text_client_proxy_witness :
  exists kwargs out,
    new_events initial_world
      (snd (handle_call_tool one_result_provider "ddgs_text_search"
              proxied_query initial_world)) =
    [EvNew (mkDDGS 0 (Some "socks5://127.0.0.1:9150") 10 true);
     EvCall WorkerThread (mkDDGS 0 (Some "socks5://127.0.0.1:9150") 10 true)
       text_ kwargs out].
Proof.
  refine (text_client_proxy one_result_provider proxied_query initial_world _ _).
  - exists (PStr "rust programming"). vm_compute. reflexivity.
  - intros v Hv. vm_compute in Hv. discriminate Hv.
Defined.

Section Ends.

Variable p : ascii -> bool.

Lemma rstrip_with_last (s : string) : last_kept p (rstrip_with p s).
Proof.
  induction s as [|c s IH]; [exact I|].
  rewrite rstrip_with_cons.
  destruct (rstrip_with p s) as [|d r] eqn:E.
  - destruct (p c) eqn:Hc; [exact I|exact Hc].
  - exact IH.
Qed.

Lemma strip_with_ends (s : string) :
  head_kept p (strip_with p s) /\ last_kept p (strip_with p s).
Proof.
  unfold strip_with. split.
  - apply rstrip_with_head, lstrip_with_head.
  - apply rstrip_with_last.
Qed.

End Ends.

(** X7. Whatever the arguments, the backend a text search hands to the
    provider is a non-empty string other than "auto" whose first and last
    characters are not quote characters. *)
Theorem text_backend_clean (arguments : gmap string pyval) (r : TextSearchRequest) :
  text_search_request arguments = Ok r ->
  exists b,
    kwarg "backend" (text_kwargs r) = Some (PStr b)
    /\ b <> EmptyString /\ b <> "auto"
    /\ head_kept is_quote b /\ last_kept is_quote b.
Proof.
  intros H.
  destruct (text_search_request_backend arguments r H) as (b & Hb & Hne & Hna & Hq).
  exists b. split; [unfold text_kwargs; rewrite <- Hb; reflexivity|].
  split; [exact Hne|]. split; [exact Hna|].
  rewrite <- Hq. apply strip_with_ends.
Qed.

Lemma text_backend_clean_witness :
  exists b,
    kwarg "backend" (text_kwargs spaced_auto_request) = Some (PStr b)
    /\ b <> EmptyString /\ b <> "auto"
    /\ head_kept is_quote b /\ last_kept is_quote b.
Proof.
  refine (text_backend_clean quoted_backend_arguments spaced_auto_request _).
  vm_compute. reflexivity.
Defined.

(** X8. A text search whose 'backend' argument is truthy and not a string
    is answered with the "Search error" text of the [AttributeError] for
    [strip]; no client is built and the provider is not called. *)
Theorem text_backend_not_string (provider : Provider)
    (arguments : gmap string pyval) (query v : pyval) (w : World) :
  arguments !! "query" = Some query ->
  arguments !! "backend" = Some v ->
  truthy v = true ->
  ~ is_str v ->
  handle_call_tool provider "ddgs_text_search" arguments w =
    (Ok [text_content
           (cat ["Search error: "; str_exn (AttributeError (type_name v) "strip");
                 nl; "Please try again with different parameters."])], w).
Proof.
  intros Hq Hv Ht Hs. rewrite handle_call_tool_text.
  apply handle_text_search_raise.
  unfold text_search_request, getitem, get. rewrite Hq, Hv.
  cbn [pbind default from_option id]. rewrite Ht.
  destruct v as [| |n|s]; try reflexivity.
  exfalso. apply Hs. eexists. reflexivity.
Qed.

Lemma text_backend_not_string_witness :
  handle_call_tool one_result_provider "ddgs_text_search"
    {[ "query" := PStr "rust"; "backend" := PInt 5 ]} initial_world =
    (Ok [text_content
           (cat ["Search error: "; String squote EmptyString; "int";
                 String squote EmptyString; " object has no attribute ";
                 String squote EmptyString; "strip"; String squote EmptyString;
                 nl; "Please try again with different parameters."])],
     initial_world).
Proof.
  refine (text_backend_not_string one_result_provider
            {[ "query" := PStr "rust"; "backend" := PInt 5 ]}
            (PStr "rust") (PInt 5) initial_world _ _ _ _).
  - vm_compute. reflexivity.
  - vm_compute. reflexivity.
  - reflexivity.
  - intros [s Hs]. discriminate Hs.
Defined.

(** ** The listing of the results *)

(** X9. When the provider call of an invocation of a registered tool
    returns a non-empty sequence whose entries can be rendered (the 'href'
    of a text result and the 'description' of a video result, when
    present, are strings), the answer is the one text
    "Found <n> <what>:", an empty line, and the rendered entries joined by
    newlines, [n] being the number of results. *)
Theorem found_listing (provider : Provider) (tool : string) (m : Method)
    (arguments : gmap string pyval) (w : World)
    (ctx : Context) (client : DDGS) (m' : Method)
    (kwargs : list (string * pyval)) (results : list (gmap string pyval)) :
  method_of_tool tool = Some m ->
  EvCall ctx client m' kwargs (Returns results) ∈
    new_events w (snd (handle_call_tool provider tool arguments w)) ->
  results <> [] ->
  Forall (string_fields m) results ->
  exists formatted,
    for_each_from (format_result m) 1 results = Ok formatted
    /\ fst (handle_call_tool provider tool arguments w) =
       Ok [text_content
             (cat ["Found "; str_nat (length results); " "; what m; ":"; nl; nl;
                   String.concat nl formatted])].
Proof.
  intros Hm Hin Hne Hsf. apply method_of_tool_name in Hm. subst tool.
  destruct (for_each_from_ok m results Hsf 1) as (formatted & Hf & _).
  exists formatted. split; [exact Hf|].
  destruct results as [|r0 rs]; [congruence|].
  destruct (decide (m = text_)) as [->|Hm].
  - simpl tool_name in *.
    destruct (text_search_request arguments) as [r|e] eqn:Hr.
    + destruct (text_invocation_events provider arguments r w Hr) as (out & Hrun & Hev).
      rewrite Hev in Hin. rewrite Hrun. cbn [fst].
      apply list_elem_of_In in Hin. simpl in Hin.
      destruct Hin as [Hin|[Hin|[]]]; [discriminate Hin|].
      injection Hin as _ _ _ _ Hout. rewrite Hout.
      unfold text_response, is_empty. cbn [format_result] in Hf. rewrite Hf.
      reflexivity.
    + rewrite (text_invocation_raise provider arguments e w Hr) in Hin.
      rewrite new_events_same in Hin. inversion Hin.
  - destruct (arguments !! "query") as [query|] eqn:Hq.
    + destruct (plain_invocation_events provider m arguments query w Hm Hq)
        as (out & Hrun & Hev).
      rewrite Hev in Hin. rewrite Hrun. cbn [fst].
      apply list_elem_of_In in Hin.
      destruct (ddgs_instance w); simpl in Hin;
        [destruct Hin as [Hin|[]] | destruct Hin as [Hin|[Hin|[]]]];
        try discriminate Hin;
        injection Hin as _ _ _ _ Hout; rewrite Hout;
        unfold render, is_empty; rewrite Hf; reflexivity.
    + rewrite (plain_invocation_no_query provider m arguments w Hm Hq) in Hin.
      simpl in Hin. rewrite new_events_same in Hin. inversion Hin.
Qed.

Lemma found_listing_witness :
  fst (handle_call_tool one_result_provider "ddgs_text_search" rust_query
         initial_world) =
  Ok [text_content
        (cat ["Found 1 results:"; nl; nl;
              "1. Rust"; nl; "   URL: https://rust-lang.org"; nl;
              "   A language"; nl])].
Proof.
  destruct (found_listing one_result_provider "ddgs_text_search" text_ rust_query
              initial_world WorkerThread (mkDDGS 0 None 10 true) text_
              (text_kwargs rust_request) [one_result] eq_refl)
    as (formatted & Hf & Hr).
  - vm_compute. apply list_elem_of_In. simpl. right. left. reflexivity.
  - discriminate.
  - repeat constructor. intros v Hv. vm_compute in Hv. injection Hv as <-.
    eexists. reflexivity.
  - vm_compute in Hf. injection Hf as <-. rewrite Hr. vm_compute. reflexivity.
Defined.

Lemma for_each_from_lookup {A} (f : nat -> A -> pyres string) (l : list A) :
  forall (i : nat) (out : list string),
    for_each_from f i l = Ok out ->
    length out = length l
    /\ forall (k : nat) (x : A), l !! k = Some x ->
         exists entry, out !! k = Some entry /\ f (i + k)%nat x = Ok entry.
Proof.
  induction l as [|x0 l IH]; intros i out H; simpl in H.
  - injection H as <-. split; [reflexivity|]. intros k x Hk. inversion Hk.
  - destruct (f i x0) as [e0|e] eqn:E0; cbn [pbind] in H; [|discriminate H].
    destruct (for_each_from f (S i) l) as [rest|e] eqn:Er; cbn [pbind] in H;
      [|discriminate H].
    injection H as <-. destruct (IH (S i) rest Er) as [Hlen Hk].
    split; [simpl; rewrite Hlen; reflexivity|].
    intros [|k] x Hx; simpl in Hx.
    + injection Hx as <-. exists e0. rewrite Nat.add_0_r. split; [reflexivity|exact E0].
    + destruct (Hk k x Hx) as (entry & He & Hfe). exists entry.
      split; [exact He|]. rewrite Nat.add_succ_r. exact Hfe.
Qed.

Lemma prefix_append_cons (s : string) (a b : ascii) (t : string) :
  String.prefix (s +:+ String a (String b EmptyString))
    (s +:+ String a (String b t)) = true.
Proof.
  induction s as [|c s IH]; simpl.
  - destruct (ascii_dec a a) as [_|Ha]; [|congruence].
    destruct (ascii_dec b b) as [_|Hb]; [|congruence].
    destruct t; reflexivity.
  - destruct (ascii_dec c c) as [_|Hc]; [exact IH|congruence].
Qed.

Lemma format_result_numbered (m : Method) (i : nat) (result : gmap string pyval)
    (entry : string) :
  format_result m i result = Ok entry ->
  String.prefix (str_nat i +:+ ". ") entry = true.
Proof.
  destruct m; simpl; unfold format_text_result, format_image_result,
    format_video_result, format_news_result, format_book_result; intros H.
  - destruct (text_result_url result); cbn [pbind] in H; [|discriminate H].
    injection H as <-. apply prefix_append_cons.
  - injection H as <-. apply prefix_append_cons.
  - destruct (slice_to 200 _); cbn [pbind] in H; [|discriminate H].
    injection H as <-. apply prefix_append_cons.
  - injection H as <-. apply prefix_append_cons.
  - injection H as <-. apply prefix_append_cons.
Qed.

(** X10. When the entries of a result sequence are rendered, there is one
    entry per result, in the order of the results, and the entry of the
    result at position [k] (counted from 0) is its rendering under the
    number [k + 1]: it starts with that number, a dot and a space. *)
Theorem entries_numbered (m : Method) (results : list (gmap string pyval))
    (formatted : list string) :
  for_each_from (format_result m) 1 results = Ok formatted ->
  length formatted = length results
  /\ forall (k : nat) (result : gmap string pyval),
       results !! k = Some result ->
       exists entry,
         formatted !! k = Some entry
         /\ format_result m (S k) result = Ok entry
         /\ String.prefix (str_nat (S k) +:+ ". ") entry = true.
Proof.
  intros H. destruct (for_each_from_lookup (format_result m) results 1 formatted H)
    as [Hlen Hk].
  split; [exact Hlen|]. intros k result Hr.
  destruct (Hk k result Hr) as (entry & He & Hf). simpl in Hf.
  exists entry. split; [exact He|]. split; [exact Hf|].
  apply (format_result_numbered m (S k) result entry Hf).
Qed.

Lemma entries_numbered_witness :
  exists entry,
    [cat ["1. **Clip**"; nl; "   Author: N/A"; nl; "   Publisher: N/A"; nl;
          "   Info: N/A"; nl; "   URL: N/A"; nl];
     cat ["2. **No title**"; nl; "   Author: N/A"; nl; "   Publisher: N/A"; nl;
          "   Info: N/A"; nl; "   URL: N/A"; nl]] !! 1%nat = Some entry
    /\ format_result books 2 ∅ = Ok entry
    /\ String.prefix "2. " entry = true.
Proof.
  refine (proj2 (entries_numbered books [ {[ "title" := PStr "Clip" ]}; ∅ ] _ _)
            1%nat ∅ eq_refl).
  vm_compute. reflexivity.
Defined.

Lemma for_each_from_raise {A} (f : nat -> A -> pyres string) (l : list A) :
  forall (i : nat) (e : exn),
    for_each_from f i l = Raise e ->
    exists (k : nat) (x : A),
      l !! k = Some x /\ f (i + k)%nat x = Raise e
      /\ forall (j : nat) (y : A), (j < k)%nat -> l !! j = Some y ->
           exists entry, f (i + j)%nat y = Ok entry.
Proof.
  induction l as [|x0 l IH]; intros i e H; simpl in H; [discriminate H|].
  destruct (f i x0) as [e0|e'] eqn:E0; cbn [pbind] in H.
  - destruct (for_each_from f (S i) l) as [rest|e'] eqn:Er; cbn [pbind] in H;
      [discriminate H|].
    injection H as ->. destruct (IH (S i) e Er) as (k & x & Hk & Hf & Hbefore).
    exists (S k), x. split; [exact Hk|]. rewrite Nat.add_succ_r.
    split; [exact Hf|].
    intros [|j] y Hj Hy; simpl in Hy.
    + injection Hy as <-. exists e0. rewrite Nat.add_0_r. exact E0.
    + rewrite Nat.add_succ_r. apply (Hbefore j y); [lia|exact Hy].
  - injection H as ->. exists 0%nat, x0. rewrite Nat.add_0_r.
    split; [reflexivity|]. split; [exact E0|]. intros j y Hj. lia.
Qed.

(** X11. Rendering the entries raises only for text and video results: if
    it raises, the exception is the one of the first result, in order,
    whose entry cannot be rendered, that result has an 'href' (text) or a
    'description' (video) that is not a string, and every result before it
    renders. *)
Theorem formatting_failure_locus (m : Method)
    (results : list (gmap string pyval)) (e : exn) :
  for_each_from (format_result m) 1 results = Raise e ->
  (m = text_ \/ m = videos)
  /\ exists (k : nat) (result : gmap string pyval),
       results !! k = Some result
       /\ format_result m (S k) result = Raise e
       /\ ~ string_fields m result
       /\ forall (j : nat) (earlier : gmap string pyval),
            (j < k)%nat -> results !! j = Some earlier ->
            exists entry, format_result m (S j) earlier = Ok entry.
Proof.
  intros H.
  destruct (for_each_from_raise (format_result m) results 1 e H)
    as (k & result & Hk & Hf & Hbefore).
  simpl in Hf.
  assert (Hs : ~ string_fields m result).
  { intros Hs. destruct (format_result_ok m (S k) result Hs) as [entry He].
    congruence. }
  split.
  - destruct m; auto; exfalso; apply Hs; exact I.
  - exists k, result. repeat split; auto.
Qed.

Lemma formatting_failure_locus_witness :
  exists (k : nat) (result : gmap string pyval),
    [one_result; null_description] !! k = Some result
    /\ format_result videos (S k) result =
       Raise (TypeError (cat [String squote EmptyString; "NoneType";
                              String squote EmptyString;
                              " object is not subscriptable"]))
    /\ ~ string_fields videos result
    /\ forall (j : nat) (earlier : gmap string pyval),
         (j < k)%nat -> [one_result; null_description] !! j = Some earlier ->
         exists entry, format_result videos (S j) earlier = Ok entry.
Proof.
  refine (proj2 (formatting_failure_locus videos [one_result; null_description] _ _)).
  vm_compute. reflexivity.
Defined.

(** ** The description of a video *)

Lemma take_length (n : nat) (s : string) :
  String.length (take n s) = Nat.min n (String.length s).
Proof.
  revert s. induction n as [|n IH]; intros s; [reflexivity|].
  destruct s as [|c s]; [reflexivity|]. simpl. rewrite IH. reflexivity.
Qed.

Lemma take_prefix (n : nat) (s : string) : String.prefix (take n s) s = true.
Proof.
  revert s. induction n as [|n IH]; intros s; [destruct s; reflexivity|].
  destruct s as [|c s]; [reflexivity|]. simpl.
  destruct (ascii_dec c c) as [_|Hc]; [apply IH|congruence].
Qed.

Lemma take_all (n : nat) (s : string) :
  (String.length s <= n)%nat -> take n s = s.
Proof.
  revert s. induction n as [|n IH]; intros s Hs.
  - destruct s; [reflexivity|simpl in Hs; lia].
  - destruct s as [|c s]; [reflexivity|]. simpl in *. rewrite IH; [reflexivity|lia].
Qed.

(** X12. The entry of a video result whose description is the string [s]
    shows the first 200 characters of [s] (all of [s] when it has at most
    200) followed by three dots, which are appended also when nothing was
    cut off. *)
Theorem video_description_truncated (i : nat) (result : gmap string pyval)
    (s : string) :
  result !! "description" = Some (PStr s) ->
  format_video_result i result =
    Ok (cat [str_nat i; ". **"; str (get result "title" (PStr "No title")); "**"; nl;
             "   URL: "; str (get result "content" (PStr "N/A")); nl;
             "   Duration: "; str (get result "duration" (PStr "N/A")); nl;
             "   Publisher: "; str (get result "publisher" (PStr "N/A")); nl;
             "   Published: "; str (get result "published" (PStr "N/A")); nl;
             "   Description: "; take 200 s; "..."; nl])
  /\ String.length (take 200 s) = Nat.min 200 (String.length s)
  /\ String.prefix (take 200 s) s = true
  /\ ((String.length s <= 200)%nat -> take 200 s = s).
Proof.
  intros H. split; [|split; [apply take_length|split; [apply take_prefix|apply take_all]]].
  unfold format_video_result. unfold get at 1. rewrite H. reflexivity.
Qed.

Lemma video_description_truncated_witness :
  String.length long_description = 208%nat
  /\ String.length (take 200 long_description) = 200%nat
  /\ String.prefix (take 200 long_description) long_description = true.
Proof.
  destruct (video_description_truncated 1 {[ "description" := PStr long_description ]}
              long_description) as (_ & Hl & Hp & _).
  - vm_compute. reflexivity.
  - split; [vm_compute; reflexivity|]. split; [rewrite Hl; vm_compute; reflexivity|exact Hp].
Defined.

(** ** The input schemas and the handlers *)

Lemma only_query_call (provider : Provider) (m : Method) (query : pyval) (w : World) :
  omap call_kwargs
    (new_events w
       (snd (handle_call_tool provider (tool_name m) (only_query query) w))) =
  [match m with
   | text_ =>
       text_kwargs (mkTextSearchRequest query (PStr "us-en") (PStr "moderate")
                      PNone (PInt 10) (PStr "duckduckgo") None)
   | _ => plain_kwargs m query (only_query query)
   end].
Proof.
  assert (Hq : only_query query !! "query" = Some query) by reflexivity.
  destruct (decide (m = text_)) as [->|Hm].
  - assert (Hr : text_search_request (only_query query) =
                 Ok (mkTextSearchRequest query (PStr "us-en") (PStr "moderate")
                       PNone (PInt 10) (PStr "duckduckgo") None)) by reflexivity.
    destruct (text_invocation_events provider (only_query query) _ w Hr)
      as (out & _ & Hev).
    simpl tool_name. rewrite Hev. reflexivity.
  - destruct (plain_invocation_events provider m (only_query query) query w Hm Hq)
      as (out & _ & Hev).
    rewrite Hev. destruct m; try congruence; destruct (ddgs_instance w); reflexivity.
Qed.

Ltac split_key key :=
  repeat match goal with
  | H : context [String.eqb ?s key] |- _ =>
      destruct (String.eqb_spec s key) as [<-|?]
  end.

(** X13. Every default an input schema declares is the value the handler
    uses when the argument is absent: a search with no argument but the
    query hands the declared default of each parameter to the provider.
    The one exception is the backend of text search, declared with the
    default "auto" and handed over as "duckduckgo". *)
Theorem declared_defaults_used (provider : Provider) (t : Tool) (key : string)
    (p : Property) (d query : pyval) (w : World) :
  t ∈ handle_list_tools ->
  assoc key (properties t) = Some p ->
  p_default p = Some d ->
  exists kwargs,
    omap call_kwargs
      (new_events w (snd (handle_call_tool provider (name t) (only_query query) w)))
      = [kwargs]
    /\ kwarg key kwargs =
       Some (if String.eqb (name t) "ddgs_text_search" && String.eqb key "backend"
             then PStr "duckduckgo" else d).
Proof.
  intros Ht Hp Hd. apply list_elem_of_In in Ht. simpl in Ht.
  destruct Ht as [<-|[<-|[<-|[<-|[<-|[]]]]]]; cbn [assoc properties] in Hp; split_key key; cbv beta iota in Hp;
    try discriminate Hp; injection Hp as <-; cbv in Hd; try discriminate Hd;
    injection Hd as <-; eexists;
    (split;
     [first [ exact (only_query_call provider text_ query w)
            | exact (only_query_call provider images query w)
            | exact (only_query_call provider videos query w)
            | exact (only_query_call provider news query w)
            | exact (only_query_call provider books query w) ]
     | reflexivity]).
Qed.

Lemma declared_defaults_used_witness :
  exists kwargs,
    omap call_kwargs
      (new_events initial_world
         (snd (handle_call_tool one_result_provider "ddgs_video_search"
                 (only_query (PStr "rust")) initial_world))) = [kwargs]
    /\ kwarg "safesearch" kwargs = Some (PStr "moderate").
Proof.
  refine (declared_defaults_used one_result_provider
            (mkTool "ddgs_video_search"
               [("query", string_property);
                ("region", string_default "us-en");
                ("safesearch", safesearch_property);
                ("timelimit", enum_property ["d"; "w"; "m"]);
                ("max_results", max_results_property);
                ("resolution", enum_property ["high"; "standard"]);
                ("duration", enum_property ["short"; "medium"; "long"]);
                ("license_videos", enum_property ["creativeCommon"; "youtube"])]
               ["query"])
            "safesearch" safesearch_property (PStr "moderate") (PStr "rust")
            initial_world _ eq_refl eq_refl).
  apply list_elem_of_In. simpl. tauto.
Defined.

Ltac unread_key :=
  unfold get; rewrite ?lookup_insert_ne by congruence; reflexivity.

Lemma text_search_request_insert (key : string) (v : pyval)
    (arguments : gmap string pyval) :
  key <> "query" -> key <> "region" -> key <> "safesearch" ->
  key <> "timelimit" -> key <> "max_results" -> key <> "backend" ->
  key <> "proxy" ->
  text_search_request (<[key := v]> arguments) = text_search_request arguments.
Proof. intros. unfold text_search_request, getitem. unread_key. Qed.

(** X14. An argument that the input schema of the tool does not declare is
    ignored: adding it to the arguments, or changing its value, changes
    neither the answer nor the state the invocation leaves. *)
Theorem undeclared_argument_ignored (provider : Provider) (t : Tool)
    (key : string) (v : pyval) (arguments : gmap string pyval) (w : World) :
  t ∈ handle_list_tools ->
  assoc key (properties t) = None ->
  handle_call_tool provider (name t) (<[key := v]> arguments) w =
  handle_call_tool provider (name t) arguments w.
Proof.
  intros Ht Hk. apply list_elem_of_In in Ht. simpl in Ht.
  destruct Ht as [<-|[<-|[<-|[<-|[<-|[]]]]]]; cbn [assoc properties] in Hk; split_key key; cbv beta iota in Hk;
    try discriminate Hk; cbn [name].
  - rewrite !handle_call_tool_text. unfold handle_text_search.
    rewrite text_search_request_insert by congruence. reflexivity.
  - rewrite !(handle_call_tool_plain provider images) by discriminate.
    rewrite lookup_insert_ne by congruence. unfold plain_kwargs. unread_key.
  - rewrite !(handle_call_tool_plain provider videos) by discriminate.
    rewrite lookup_insert_ne by congruence. unfold plain_kwargs. unread_key.
  - rewrite !(handle_call_tool_plain provider news) by discriminate.
    rewrite lookup_insert_ne by congruence. unfold plain_kwargs. unread_key.
  - rewrite !(handle_call_tool_plain provider books) by discriminate.
    rewrite lookup_insert_ne by congruence. unfold plain_kwargs. unread_key.
Qed.

Lemma undeclared_argument_ignored_witness :
  handle_call_tool one_result_provider "ddgs_book_search"
    (<["proxy" := PStr "tb"]> rust_query) initial_world =
  handle_call_tool one_result_provider "ddgs_book_search" rust_query initial_world.
Proof.
  refine (undeclared_argument_ignored one_result_provider
            (mkTool "ddgs_book_search"
               [("query", string_property); ("max_results", max_results_property)]
               ["query"])
            "proxy" (PStr "tb") rust_query initial_world _ eq_refl).
  apply list_elem_of_In. simpl. tauto.
Defined.

(** ** What an invocation leaves behind *)

(** X15. An invocation only adds to the history: at most one client
    construction and at most one provider call (a failed search is not
    retried), and it uses up at most one object identity. *)
Theorem invocation_footprint (provider : Provider) (tool : string)
    (arguments : gmap string pyval) (w : World) :
  let w' := snd (handle_call_tool provider tool arguments w) in
  exists evs,
    trace w' = (trace w ++ evs)%list
    /\ (length (filter (fun ev => is_call ev = true) evs) <= 1)%nat
    /\ (length (filter (fun ev => is_call ev = false) evs) <= 1)%nat
    /\ (next_id w <= next_id w' <= S (next_id w))%nat.
Proof.
  intros w'. subst w'.
  destruct (handle_call_tool_step provider tool arguments w) as [|r out|m kwargs out Hm].
  - exists []. rewrite app_nil_r. simpl. repeat split; lia.
  - eexists. simpl. rewrite <- app_assoc. split; [reflexivity|].
    simpl. repeat split; lia.
  - unfold with_shared_client. destruct (ddgs_instance w); simpl.
    + eexists. split; [reflexivity|]. simpl. repeat split; lia.
    + eexists. rewrite <- app_assoc. split; [reflexivity|].
      simpl. repeat split; lia.
Qed.

Lemma configured_client (ev : Event) (c : DDGS) :
  event_client ev = Some c -> timeout c = 10 /\ verify c = true -> configured ev.
Proof. intros Hev Hc c' Hc'. rewrite Hev in Hc'. injection Hc' as <-. exact Hc. Qed.

Lemma configured_step (w w' : World) :
  cache_invariant w -> cache_step w w' ->
  Forall configured (trace w) -> Forall configured (trace w').
Proof.
  intros Hinv Hstep Hall.
  destruct Hstep as [|r out|m kwargs out Hm].
  - exact Hall.
  - simpl. rewrite <- app_assoc. apply Forall_app. split; [exact Hall|].
    constructor; [|constructor; [|constructor]];
      apply (configured_client _ (text_client r w)); try reflexivity;
      split; reflexivity.
  - assert (Hsh : timeout (shared_client w) = 10 /\ verify (shared_client w) = true).
    { unfold shared_client. destruct (ddgs_instance w) as [cached|] eqn:Hc; simpl.
      - destruct (cached_without_proxy w Hinv cached Hc) as (_ & ? & ? & _). auto.
      - split; reflexivity. }
    assert (Hcall : configured (EvCall EventLoop (shared_client w) m kwargs out)).
    { apply (configured_client _ (shared_client w)); [reflexivity|exact Hsh]. }
    assert (Hnew : configured (EvNew (shared_client w))).
    { apply (configured_client _ (shared_client w)); [reflexivity|exact Hsh]. }
    unfold with_shared_client. destruct (ddgs_instance w) eqn:Hc; simpl.
    + apply Forall_app. split; [exact Hall|]. constructor; [exact Hcall|constructor].
    + rewrite <- app_assoc. apply Forall_app. split; [exact Hall|].
      constructor; [exact Hnew|]. constructor; [exact Hcall|constructor].
Qed.

Lemma configured_serve (provider : Provider)
    (invocations : list (string * gmap string pyval)) (w : World) :
  cache_invariant w -> Forall configured (trace w) ->
  Forall configured (trace (serve provider invocations w)).
Proof.
  revert w. induction invocations as [|[tool arguments] rest IH]; intros w Hw Hall.
  - exact Hall.
  - simpl. apply IH.
    + apply (cache_invariant_step w); [exact Hw|apply handle_call_tool_step].
    + apply (configured_step w); [exact Hw|apply handle_call_tool_step|exact Hall].
Qed.

(** X16. Over every sequence of invocations, every client that is built
    and every client a provider call is made through has the timeout 10
    and TLS verification switched on. *)
Theorem clients_configuration (provider : Provider)
    (invocations : list (string * gmap string pyval)) (ev : Event) (c : DDGS) :
  ev ∈ trace (serve provider invocations initial_world) ->
  event_client ev = Some c ->
  timeout c = 10 /\ verify c = true.
Proof.
  intros Hin Hc.
  pose proof (configured_serve provider invocations initial_world
                cache_invariant_initial (Forall_nil_2 _)) as Hall.
  rewrite Forall_forall in Hall. exact (Hall ev Hin c Hc).
Qed.

Lemma clients_configuration_witness :
  timeout (mkDDGS 1 (Some "socks5://127.0.0.1:9150") 10 true) = 10
  /\ verify (mkDDGS 1 (Some "socks5://127.0.0.1:9150") 10 true) = true.
Proof.
  refine (clients_configuration one_result_provider mixed_invocations
            (EvNew (mkDDGS 1 (Some "socks5://127.0.0.1:9150") 10 true)) _ _ eq_refl).
  vm_compute. apply list_elem_of_In. simpl. tauto.
Defined.

(** ** The URL of a text result, once more *)

Lemma prefix_split (s t : string) :
  String.prefix s t = true -> exists rest, t = s +:+ rest.
Proof.
  revert t. induction s as [|a s IH]; intros t H.
  - exists t. reflexivity.
  - destruct t as [|b t]; simpl in H; [discriminate H|].
    destruct (ascii_dec a b) as [<-|]; [|discriminate H].
    destruct (IH t H) as [rest ->]. exists rest. reflexivity.
Qed.

Lemma rewritten_url_scheme (u : string) : has_scheme (rewritten_url u) = true.
Proof.
  unfold rewritten_url, has_scheme.
  destruct (String.prefix "http://" u || String.prefix "https://" u) eqn:E;
    [exact E|].
  destruct (String.prefix "//" u) eqn:E2.
  - destruct (prefix_split "//" u E2) as [rest ->]. destruct rest; reflexivity.
  - destruct u; reflexivity.
Qed.

Lemma has_scheme_not_placeholder (u : string) :
  has_scheme u = true -> u <> EmptyString /\ u <> "N/A".
Proof.
  intros H. split; intros ->; vm_compute in H; discriminate H.
Qed.

Lemma rewritten_url_fixed (u : string) : has_scheme u = true -> rewritten_url u = u.
Proof. unfold has_scheme, rewritten_url. intros ->. reflexivity. Qed.

(** X17. The URL a text result is rendered with is the empty string, the
    placeholder "N/A", or a string that starts with "http://" or
    "https://"; and rendering a result that carries this URL as its
    'href' leaves it as it is (the rewrite is applied at most once). *)
Theorem text_url_stable (result : gmap string pyval) (u : string) :
  result !! "href" = Some (PStr u) ->
  exists u',
    text_result_url result = Ok (PStr u')
    /\ (u' = EmptyString \/ u' = "N/A" \/ has_scheme u' = true)
    /\ forall result' : gmap string pyval,
         result' !! "href" = Some (PStr u') ->
         text_result_url result' = Ok (PStr u').
Proof.
  intros H.
  destruct (decide (u = EmptyString)) as [->|Hne].
  { exists EmptyString. split; [|split; [auto|]].
    - unfold text_result_url, get. rewrite H. reflexivity.
    - intros result' H'. unfold text_result_url, get. rewrite H'. reflexivity. }
  destruct (decide (u = "N/A")) as [->|Hna].
  { exists "N/A". split; [|split; [auto|]].
    - unfold text_result_url, get. rewrite H. reflexivity.
    - intros result' H'. unfold text_result_url, get. rewrite H'. reflexivity. }
  exists (rewritten_url u).
  pose proof (rewritten_url_scheme u) as Hs.
  split; [apply text_result_url_rewritten; assumption|].
  split; [auto|].
  intros result' H'.
  destruct (has_scheme_not_placeholder _ Hs) as [H1 H2].
  rewrite (text_result_url_rewritten result' (rewritten_url u) H' H1 H2).
  rewrite (rewritten_url_fixed _ Hs). reflexivity.
Qed.

Lemma text_url_stable_witness :
  exists u',
    text_result_url one_result = Ok (PStr u')
    /\ (u' = EmptyString \/ u' = "N/A" \/ has_scheme u' = true)
    /\ forall result' : gmap string pyval,
         result' !! "href" = Some (PStr u') ->
         text_result_url result' = Ok (PStr u').
Proof.
  refine (text_url_stable one_result "rust-lang.org" _).
  vm_compute. reflexivity.
Defined.

(** ** Required arguments *)

Lemma text_search_request_inv (arguments : gmap string pyval)
    (r : TextSearchRequest) :
  text_search_request arguments = Ok r ->
  is_Some (arguments !! "query") /\ backend_cleanable arguments.
Proof.
  unfold text_search_request, getitem. intros H.
  destruct (arguments !! "query") as [query|]; cbn [pbind] in H; [|discriminate H].
  split; [eexists; reflexivity|].
  intros v Hv Ht. unfold get in H. rewrite Hv in H. cbn [default from_option id] in H.
  rewrite Ht in H.
  destruct v as [| |n|s]; cbn [strip pbind] in H; try discriminate H.
  eexists. reflexivity.
Qed.

(** X18. The arguments an input schema lists as required are the ones the
    handler cannot do without: the invocation of a registered tool reaches
    the provider exactly when every required argument is present (and, for
    text search, a truthy backend argument is a string). *)
Theorem provider_called_iff_required (provider : Provider) (t : Tool)
    (arguments : gmap string pyval) (w : World) :
  t ∈ handle_list_tools ->
  ((forall k, k ∈ required t -> is_Some (arguments !! k))
   /\ (name t = "ddgs_text_search" -> backend_cleanable arguments))
  <->
  omap call_kwargs
    (new_events w (snd (handle_call_tool provider (name t) arguments w))) <> [].
Proof.
  intros Ht.
  assert (Hreq : required t = ["query"]).
  { apply list_elem_of_In in Ht. simpl in Ht.
    destruct Ht as [<-|[<-|[<-|[<-|[<-|[]]]]]]; reflexivity. }
  assert (Hm : exists m, name t = tool_name m).
  { apply list_elem_of_In in Ht. simpl in Ht.
    destruct Ht as [<-|[<-|[<-|[<-|[<-|[]]]]]];
      [exists text_|exists images|exists videos|exists news|exists books];
      reflexivity. }
  destruct Hm as [m Hm]. rewrite Hm, Hreq. clear Ht Hreq Hm.
  split.
  - intros [Hq Hb].
    assert (Hquery : is_Some (arguments !! "query")).
    { apply Hq. apply list_elem_of_In. simpl. tauto. }
    destruct Hquery as [query Hquery].
    destruct (decide (m = text_)) as [->|Hne].
    + destruct (text_search_request_ok arguments query Hquery (Hb eq_refl))
        as (r & Hr & _).
      destruct (text_invocation_events provider arguments r w Hr) as (out & _ & Hev).
      simpl tool_name. rewrite Hev. discriminate.
    + destruct (plain_invocation_events provider m arguments query w Hne Hquery)
        as (out & _ & Hev).
      rewrite Hev. destruct (ddgs_instance w); discriminate.
  - intros Hcall.
    destruct (decide (m = text_)) as [->|Hne].
    + simpl tool_name in Hcall.
      destruct (text_search_request arguments) as [r|e] eqn:Hr.
      * destruct (text_search_request_inv arguments r Hr) as [Hq Hb].
        split; [|intros _; exact Hb].
        intros k Hk. apply list_elem_of_singleton in Hk. subst k. exact Hq.
      * rewrite (text_invocation_raise provider arguments e w Hr) in Hcall.
        rewrite new_events_same in Hcall. contradiction.
    + split; [|intros E; destruct m; try congruence; discriminate E].
      intros k Hk. apply list_elem_of_singleton in Hk. subst k.
      destruct (arguments !! "query") as [query|] eqn:Hq; [eexists; reflexivity|].
      rewrite (plain_invocation_no_query provider m arguments w Hne Hq) in Hcall.
      simpl in Hcall. rewrite new_events_same in Hcall. contradiction.
Qed.

Lemma provider_called_iff_required_witness :
  omap call_kwargs
    (new_events initial_world
       (snd (handle_call_tool one_result_provider "ddgs_book_search" rust_query
               initial_world))) <> [].
Proof.
  refine (proj1 (provider_called_iff_required one_result_provider
                   (mkTool "ddgs_book_search"
                      [("query", string_property);
                       ("max_results", max_results_property)]
                      ["query"])
                   rust_query initial_world _) _).
  - apply list_elem_of_In. simpl. tauto.
  - split.
    + intros k Hk. apply list_elem_of_singleton in Hk. subst k.
      exists (PStr "rust programming"). vm_compute. reflexivity.
    + intros E. discriminate E.
Defined.

(** ** How many clients are built *)

Lemma clients_accounted_step (w w' : World) :
  cache_step w w' -> clients_accounted w -> clients_accounted w'.
Proof.
  unfold clients_accounted. intros Hstep H.
  destruct Hstep as [|r out|m kwargs out Hm].
  - exact H.
  - simpl. rewrite <- app_assoc, filter_app, omap_app, !length_app. simpl.
    rewrite H. lia.
  - assert (E : forall l : list Event,
               omap text_call_id
                 (l ++ [EvCall EventLoop (shared_client w) m kwargs out])%list =
               omap text_call_id l).
    { intros l. rewrite omap_app.
      destruct m; try congruence; simpl; apply app_nil_r. }
    unfold with_shared_client.
    destruct (ddgs_instance w) as [cached|] eqn:Hc;
      unfold log_event; cbn [trace ddgs_instance]; rewrite E, filter_app, length_app.
    + rewrite Hc, H. simpl. lia.
    + rewrite omap_app, filter_app, !length_app, H. simpl. lia.
Qed.

(** X19. Over every sequence of invocations, the number of clients built is
    the number of text searches that reached the provider, plus one if a
    shared client is cached: the four other tools together build at most
    one client, however many searches they serve. *)
Theorem clients_built (provider : Provider)
    (invocations : list (string * gmap string pyval)) :
  clients_accounted (serve provider invocations initial_world).
Proof.
  assert (H : forall w, clients_accounted w ->
                        clients_accounted (serve provider invocations w)).
  { induction invocations as [|[tool arguments] rest IH]; intros w Hw; [exact Hw|].
    simpl. apply IH.
    apply (clients_accounted_step w); [apply handle_call_tool_step|exact Hw]. }
  apply H. reflexivity.
Qed.

(** ** Supplied arguments reach the provider as they are *)

Lemma text_search_request_fields (arguments : gmap string pyval)
    (r : TextSearchRequest) :
  text_search_request arguments = Ok r ->
  arguments !! "query" = Some (ts_query r)
  /\ ts_region r = get arguments "region" (PStr "us-en")
  /\ ts_safesearch r = get arguments "safesearch" (PStr "moderate")
  /\ ts_timelimit r = get arguments "timelimit" PNone
  /\ ts_max_results r = get arguments "max_results" (PInt 10).
Proof.
  unfold text_search_request, getitem. intros H.
  destruct (arguments !! "query") as [query|]; cbn [pbind] in H; [|discriminate H].
  destruct (if truthy (get arguments "backend" (PStr "auto")) then _ else _)
    as [b|e]; cbn [pbind] in H; [|discriminate H].
  injection H as <-. repeat split; reflexivity.
Qed.

(** X20. No handler checks the type, the enumeration or the range of an
    argument: for every registered tool and every parameter its input
    schema declares (but the backend and the proxy of text search, which are
    cleaned), a supplied value, whatever it is, is handed to the provider
    unchanged, provided the invocation names a query (and, for text
    search, a truthy backend argument is a string). *)
Theorem supplied_argument_forwarded (provider : Provider) (t : Tool)
    (key : string) (p : Property) (v : pyval)
    (arguments : gmap string pyval) (w : World) :
  t ∈ handle_list_tools ->
  assoc key (properties t) = Some p ->
  arguments !! key = Some v ->
  is_Some (arguments !! "query") ->
  (name t = "ddgs_text_search" ->
   backend_cleanable arguments /\ key <> "backend" /\ key <> "proxy") ->
  exists kwargs,
    omap call_kwargs
      (new_events w (snd (handle_call_tool provider (name t) arguments w)))
      = [kwargs]
    /\ kwarg key kwargs = Some v.
Proof.
  intros Ht Hp Hv [query Hq] Htext.
  apply list_elem_of_In in Ht. simpl in Ht.
  destruct Ht as [<-|[<-|[<-|[<-|[<-|[]]]]]]; cbn [name] in *.
  - destruct (Htext eq_refl) as (Hb & Hkb & Hkp).
    destruct (text_search_request_ok arguments query Hq Hb) as (r & Hr & _).
    destruct (text_search_request_fields arguments r Hr)
      as (Eq & Er & Es & Et & Em).
    destruct (text_invocation_events provider arguments r w Hr) as (out & _ & Hev).
    rewrite Hev. exists (text_kwargs r). split; [reflexivity|].
    cbn [assoc properties] in Hp; split_key key; cbv beta iota in Hp;
      try discriminate Hp; try congruence;
      unfold text_kwargs, kwarg; cbn [assoc]; cbv beta iota;
      rewrite ?Er, ?Es, ?Et, ?Em; unfold get; rewrite ?Hv; simpl; congruence.
  - destruct (plain_invocation_events provider images arguments query w
                ltac:(discriminate) Hq) as (out & _ & Hev).
    simpl tool_name in Hev. rewrite Hev.
    exists (plain_kwargs images query arguments).
    split; [destruct (ddgs_instance w); reflexivity|].
    cbn [assoc properties] in Hp; split_key key; cbv beta iota in Hp;
      try discriminate Hp;
      unfold plain_kwargs, kwarg, get; rewrite ?Hv; simpl; congruence.
  - destruct (plain_invocation_events provider videos arguments query w
                ltac:(discriminate) Hq) as (out & _ & Hev).
    simpl tool_name in Hev. rewrite Hev.
    exists (plain_kwargs videos query arguments).
    split; [destruct (ddgs_instance w); reflexivity|].
    cbn [assoc properties] in Hp; split_key key; cbv beta iota in Hp;
      try discriminate Hp;
      unfold plain_kwargs, kwarg, get; rewrite ?Hv; simpl; congruence.
  - destruct (plain_invocation_events provider news arguments query w
                ltac:(discriminate) Hq) as (out & _ & Hev).
    simpl tool_name in Hev. rewrite Hev.
    exists (plain_kwargs news query arguments).
    split; [destruct (ddgs_instance w); reflexivity|].
    cbn [assoc properties] in Hp; split_key key; cbv beta iota in Hp;
      try discriminate Hp;
      unfold plain_kwargs, kwarg, get; rewrite ?Hv; simpl; congruence.
  - destruct (plain_invocation_events provider books arguments query w
                ltac:(discriminate) Hq) as (out & _ & Hev).
    simpl tool_name in Hev. rewrite Hev.
    exists (plain_kwargs books query arguments).
    split; [destruct (ddgs_instance w); reflexivity|].
    cbn [assoc properties] in Hp; split_key key; cbv beta iota in Hp;
      try discriminate Hp;
      unfold plain_kwargs, kwarg, get; rewrite ?Hv; simpl; congruence.
Qed.

Lemma supplied_argument_forwarded_witness :
  exists kwargs,
    omap call_kwargs
      (new_events initial_world
         (snd (handle_call_tool one_result_provider "ddgs_news_search"
                 {[ "query" := PStr "rust"; "safesearch" := PStr "strict" ]}
                 initial_world))) = [kwargs]
    /\ kwarg "safesearch" kwargs = Some (PStr "strict").
Proof.
  refine (supplied_argument_forwarded one_result_provider
            (mkTool "ddgs_news_search"
               [("query", string_property);
                ("region", string_default "us-en");
                ("safesearch", safesearch_property);
                ("timelimit", enum_property ["d"; "w"; "m"]);
                ("max_results", max_results_property);
                ("backend", string_default "auto")]
               ["query"])
            "safesearch" safesearch_property (PStr "strict")
            {[ "query" := PStr "rust"; "safesearch" := PStr "strict" ]}
            initial_world _ eq_refl _ _ _).
  - apply list_elem_of_In. simpl. tauto.
  - vm_compute. reflexivity.
  - exists (PStr "rust"). vm_compute. reflexivity.
  - intros E. discriminate E.
Defined.
